(** * Esmerald application bootstrap: configuration merge, exception-handler
      resolution and middleware-stack composition.

    A shallow embedding of [esmerald/applications.py] and of
    [esmerald/utils/helpers.py].  Python values are a small dynamic universe;
    the constructor runs in an error monad over a store of list objects, so
    that the in-place extension of the middleware list and its aliasing with
    the caller's list are visible. *)

From Stdlib Require Import ZArith String List Bool Lia.
From stdpp Require Import base list strings.
Import ListNotations.
Open Scope string_scope.
Open Scope list_scope.

(** ** Classes

    A class is its name together with its chain of bases (single
    inheritance); two classes are the same class when they are equal. *)

Inductive cls : Type :=
| Cobject
| Cnamed (name : string) (base : cls).

#[global] Instance cls_eq_dec : EqDecision cls.
Proof. solve_decision. Defined.

Fixpoint issubclass_cls (c d : cls) : bool :=
  if decide (c = d) then true
  else match c with
       | Cobject => false
       | Cnamed _ base => issubclass_cls base d
       end.

Definition Ctype : cls := Cnamed "type" Cobject.
Definition CNoneType : cls := Cnamed "NoneType" Cobject.
Definition Cint : cls := Cnamed "int" Cobject.
Definition Cbool : cls := Cnamed "bool" Cint.
Definition Cstr : cls := Cnamed "str" Cobject.
Definition Clist : cls := Cnamed "list" Cobject.
Definition Cdict : cls := Cnamed "dict" Cobject.
Definition Cfunction : cls := Cnamed "function" Cobject.
Definition CGenericAlias : cls := Cnamed "_GenericAlias" Cobject.
Definition CBaseException : cls := Cnamed "BaseException" Cobject.
Definition CException : cls := Cnamed "Exception" CBaseException.
Definition CImproperlyConfigured : cls :=
  Cnamed "ImproperlyConfigured" (Cnamed "HTTPException" CException).
Definition CValidationErrorException : cls :=
  Cnamed "ValidationErrorException" (Cnamed "HTTPException" CException).
Definition CEsmeraldAPISettings : cls :=
  Cnamed "EsmeraldAPISettings" (Cnamed "BaseSettings" (Cnamed "BaseModel" Cobject)).

(** ** Python values *)

#[local] Set Warnings "-register-all".

Inductive pyval : Type :=
| PNone
| PBool (b : bool)
| PInt (n : Z)
| PStr (s : string)
| PList (items : list pyval)
| PDict (items : list (string * pyval))
| PFun (name : string)
| PClass (c : cls)
| PInst (c : cls) (bool_ : bool) (attrs : list (string * pyval))
| PAlias (origin : cls).

(** [bool(v)]: [None], [False], zero and empty containers are falsy; an
    instance answers with its [__bool__] (carried as [bool_]). *)
Definition truthy (v : pyval) : bool :=
  match v with
  | PNone => false
  | PBool b => b
  | PInt n => negb (n =? 0)%Z
  | PStr s => match s with EmptyString => false | String _ _ => true end
  | PList items => match items with [] => false | _ => true end
  | PDict items => match items with [] => false | _ => true end
  | PFun _ => true
  | PClass _ => true
  | PInst _ b _ => b
  | PAlias _ => true
  end.

(** [a or b] *)
Definition py_or (a b : pyval) : pyval := if truthy a then a else b.

Definition is_None (v : pyval) : bool :=
  match v with PNone => true | _ => false end.

(** [type(v)]; class objects have the metaclass [type]. *)
Definition type_of (v : pyval) : cls :=
  match v with
  | PNone => CNoneType
  | PBool _ => Cbool
  | PInt _ => Cint
  | PStr _ => Cstr
  | PList _ => Clist
  | PDict _ => Cdict
  | PFun _ => Cfunction
  | PClass _ => Ctype
  | PInst c _ _ => c
  | PAlias _ => CGenericAlias
  end.

Definition isinstance (v : pyval) (c : cls) : bool :=
  issubclass_cls (type_of v) c.

(** ** Exceptions and the error monad *)

Inductive exn : Type :=
| ImproperlyConfigured (detail : string)
| AssertionError (msg : string)
| TypeError
| AttributeError.

Definition result (A : Type) : Type := exn + A.

Definition ok {A} (a : A) : result A := inr a.
Definition raise {A} (e : exn) : result A := inl e.
Definition bind {A B} (m : result A) (k : A -> result B) : result B :=
  match m with
  | inl e => inl e
  | inr a => k a
  end.

Notation "'do' x <- m ; k" := (bind m (fun x => k))
  (at level 10, x pattern, m at level 100, k at level 200).

(** ** esmerald/utils/helpers.py *)

(** [inspect.isclass] *)
Definition isclass (v : pyval) : bool :=
  match v with PClass _ => true | _ => false end.

(** [typing_extensions.get_origin]: the unsubscripted class of a
    parameterised generic, [None] for anything else. *)
Definition get_origin (v : pyval) : option cls :=
  match v with PAlias origin => Some origin | _ => None end.

(** The builtin [issubclass(value, _type)]: [TypeError] unless both
    arguments are classes. *)
Definition issubclass (value _type : pyval) : result bool :=
  match value, _type with
  | PClass c, PClass d => ok (issubclass_cls c d)
  | _, _ => raise TypeError
  end.

Definition is_class_and_subclass (value _type : pyval) : bool :=
  let original := get_origin value in
  if negb (bool_decide (is_Some original)) && negb (isclass value) then false
  else
    (* try: ... except TypeError: return False *)
    let attempt :=
      match original with
      | Some o => issubclass (PClass o) _type
      | None => issubclass value _type
      end in
    match attempt with
    | inr b => b
    | inl _ => false
    end.

(** ** Dictionaries

    A [dict] keeps its keys in insertion order; assigning to a key that is
    present replaces the value where the key stands. *)

Section dict.
Context {K V : Type} `{EqDecision K}.

Fixpoint dict_get (k : K) (d : list (K * V)) : option V :=
  match d with
  | [] => None
  | (k', v') :: d' => if decide (k = k') then Some v' else dict_get k d'
  end.

(** [d[k] = v] *)
Fixpoint dict_set (k : K) (v : V) (d : list (K * V)) : list (K * V) :=
  match d with
  | [] => [(k, v)]
  | (k', v') :: d' =>
      if decide (k = k') then (k, v) :: d' else (k', v') :: dict_set k v d'
  end.

(** [d.update(other)] *)
Definition dict_update (d other : list (K * V)) : list (K * V) :=
  fold_left (fun acc kv => dict_set (fst kv) (snd kv) acc) other d.

(** [d.setdefault(k, v)] *)
Definition dict_setdefault (k : K) (v : V) (d : list (K * V)) : list (K * V) :=
  match dict_get k d with
  | Some _ => d
  | None => dict_set k v d
  end.

Definition dict_keys (d : list (K * V)) : list K := map fst d.
End dict.

(** ** Exception handlers *)

Inductive exc_key : Type :=
| StatusCode (code : Z)
| ExcClass (c : cls).

#[global] Instance exc_key_eq_dec : EqDecision exc_key.
Proof. solve_decision. Defined.

(** A handler callable, known by its name. *)
Definition handler_fn : Type := string.

Definition ExceptionHandlers : Type := list (exc_key * handler_fn).

Definition improperly_configured_exception_handler : handler_fn :=
  "improperly_configured_exception_handler".
Definition validation_error_exception_handler : handler_fn :=
  "validation_error_exception_handler".

(** ** Middleware *)

Inductive mw_class : Type :=
| TrustedHostMiddleware
| CORSMiddleware
| CSRFMiddleware
| SessionMiddleware
| EsmeraldAPIExceptionMiddleware
| ExceptionMiddleware
| AsyncExitStackMiddleware
| UserMiddleware (name : string).

#[global] Instance mw_class_eq_dec : EqDecision mw_class.
Proof. solve_decision. Defined.

Inductive kwarg : Type :=
| KVal (v : pyval)
| KHandlers (h : ExceptionHandlers)
| KHandler (h : option handler_fn).

Definition kwargs : Type := list (string * kwarg).

(** [starlette.middleware.Middleware(cls, **options)] *)
Record StarletteMiddleware : Type := mkStarletteMiddleware {
  mw_cls : mw_class;
  mw_options : kwargs
}.

(** An entry of a middleware list: already wrapped, or a bare class. *)
Inductive Middleware : Type :=
| Wrapped (m : StarletteMiddleware)
| Bare (c : mw_class).

(** The callable the chain is built into: the router, or a middleware
    instance constructed as [cls(app=app, **options)]. *)
Inductive ASGIApp : Type :=
| RouterApp
| Layer (c : mw_class) (options : kwargs) (app : ASGIApp).

(** ** Route tree

    Modelled from the spec: the route classes ([esmerald.routing]) are not
    among the sources.  A Route Node is a Group ([Include], possibly a
    nested-application boundary) or a Gateway with its own middleware and
    exception-handler lists and a bound handler; only the attributes the two
    walks read are kept. *)

Record Handler : Type := mkHandler {
  handler_middleware : option (list Middleware);
  handler_exception_handlers : option ExceptionHandlers
}.

(** What [getattr(route, "app", None)] finds on an [Include]. *)
Inductive app_ref (R : Type) : Type :=
| NoApp
| EsmeraldApp (routes : list R) (middleware : list Middleware)
    (exception_handlers : ExceptionHandlers)
| ChildEsmeraldApp (routes : list R) (middleware : list Middleware)
    (exception_handlers : ExceptionHandlers)
| OtherASGIApp (name : string).
Arguments NoApp {R}.
Arguments EsmeraldApp {R}.
Arguments ChildEsmeraldApp {R}.
Arguments OtherASGIApp {R}.

Inductive route : Type :=
| Include (app : app_ref route) (routes : list route)
    (middleware : list Middleware) (exception_handlers : ExceptionHandlers)
| Gateway (middleware : list Middleware)
    (exception_handlers : ExceptionHandlers) (handler : Handler)
| WebSocketGateway (middleware : list Middleware)
    (exception_handlers : ExceptionHandlers) (handler : Handler)
| OtherRoute (name : string).

(** [app and isinstance(app, (Esmerald, ChildEsmerald))] *)
Definition is_nested_application {R} (app : app_ref R) : bool :=
  match app with
  | EsmeraldApp _ _ _ | ChildEsmeraldApp _ _ _ => true
  | NoApp | OtherASGIApp _ => false
  end.

Definition nonempty {A} (l : option (list A)) : bool :=
  match l with
  | Some (_ :: _) => true
  | _ => false
  end.

Definition build_routes_middleware (r : route)
    (middlewares : option (list Middleware)) : list Middleware :=
  (* if not middlewares: middlewares = [] *)
  let middlewares := if nonempty middlewares then default [] middlewares else [] in
  match r with
  | Include app _ _ _ =>
      if is_nested_application app then middlewares
      else middlewares
  | Gateway middleware _ handler
  | WebSocketGateway middleware _ handler =>
      let middlewares := middlewares ++ middleware in
      if nonempty (handler_middleware handler)
      then middlewares ++ default [] (handler_middleware handler)
      else middlewares
  | OtherRoute _ => middlewares
  end.

Fixpoint build_routes_exception_handlers (r : route)
    (exception_handlers : option ExceptionHandlers) : ExceptionHandlers :=
  (* if not exception_handlers: exception_handlers = {} *)
  let exception_handlers :=
    if nonempty exception_handlers then default [] exception_handlers else [] in
  match r with
  | Include app routes _ route_handlers =>
      let exception_handlers := dict_update exception_handlers route_handlers in
      if is_nested_application app then exception_handlers
      else
        fold_left
          (fun acc _route => build_routes_exception_handlers _route (Some acc))
          routes exception_handlers
  | Gateway _ route_handlers handler
  | WebSocketGateway _ route_handlers handler =>
      let exception_handlers := dict_update exception_handlers route_handlers in
      if nonempty (handler_exception_handlers handler)
      then dict_update exception_handlers
             (default [] (handler_exception_handlers handler))
      else exception_handlers
  | OtherRoute _ => exception_handlers
  end.

(** ** The store of list objects

    A middleware list is a mutable object: the application, the caller and
    the settings may hold the same one.  A location names a list object. *)

Abbreviation loc := nat (only parsing).
Abbreviation store := (list (list Middleware)) (only parsing).

Definition deref (s : store) (l : loc) : list Middleware := default [] (s !! l).

(** A new list object. *)
Definition alloc (v : list Middleware) (s : store) : loc * store :=
  (length s, s ++ [v]).

(** [l += xs] on a list: the object at [l] is extended in place. *)
Definition extend (s : store) (l : loc) (xs : list Middleware) : store :=
  <[l := deref s l ++ xs]> s.

(** Truthiness of an optional reference to a list object. *)
Definition truthy_ref (s : store) (o : option loc) : bool :=
  match o with
  | Some l => nonempty (s !! l)
  | None => false
  end.

Definition or_ref (s : store) (a b : option loc) : option loc :=
  if truthy_ref s a then a else b.

Definition or_handlers (a b : option ExceptionHandlers) : option ExceptionHandlers :=
  if nonempty a then a else b.

(** ** Constructor arguments, settings and the Configuration Record *)

(** The keyword arguments of [Esmerald.__init__]. *)
Module Args.
Record t : Type := mk {
  settings_config : pyval;
  debug : pyval;
  app_name : pyval;
  title : pyval;
  version : pyval;
  summary : pyval;
  description : pyval;
  contact : pyval;
  terms_of_service : pyval;
  license : pyval;
  security : pyval;
  servers : pyval;
  secret_key : pyval;
  allowed_hosts : pyval;
  allow_origins : pyval;
  permissions : pyval;
  interceptors : pyval;
  dependencies : pyval;
  csrf_config : pyval;
  openapi_config : pyval;
  cors_config : pyval;
  static_files_config : pyval;
  template_config : pyval;
  session_config : pyval;
  response_class : pyval;
  response_cookies : pyval;
  response_headers : pyval;
  scheduler_class : pyval;
  scheduler_tasks : pyval;
  scheduler_configurations : pyval;
  enable_scheduler : pyval;
  timezone : pyval;
  routes : option (list route);
  root_path : pyval;
  middleware : option loc;
  exception_handlers : option ExceptionHandlers;
  on_startup : pyval;
  on_shutdown : pyval;
  lifespan : pyval;
  tags : pyval;
  include_in_schema : pyval;
  deprecated : pyval;
  enable_openapi : pyval;
  redirect_slashes : pyval
}.
End Args.

(** The attributes read from a settings object. *)
Module Settings.
Record t : Type := mk {
  debug : pyval;
  title : pyval;
  app_name : pyval;
  description : pyval;
  version : pyval;
  summary : pyval;
  contact : pyval;
  terms_of_service : pyval;
  license : pyval;
  servers : pyval;
  secret_key : pyval;
  allowed_hosts : pyval;
  allow_origins : pyval;
  permissions : pyval;
  interceptors : pyval;
  dependencies : pyval;
  csrf_config : pyval;
  cors_config : pyval;
  openapi_config : pyval;
  template_config : pyval;
  static_files_config : pyval;
  session_config : pyval;
  response_class : pyval;
  response_cookies : pyval;
  response_headers : pyval;
  scheduler_class : pyval;
  scheduler_tasks : pyval;
  scheduler_configurations : pyval;
  enable_scheduler : pyval;
  timezone : pyval;
  root_path : pyval;
  middleware : option loc;
  exception_handlers : option ExceptionHandlers;
  on_startup : pyval;
  on_shutdown : pyval;
  lifespan : pyval;
  tags : pyval;
  include_in_schema : pyval;
  enable_openapi : pyval;
  redirect_slashes : pyval;
  security : pyval;
  async_exit_config : pyval
}.
End Settings.

(** Modelled from the spec: [AppConfig] ([esmerald.config.application]) is not
    among the sources; the Configuration Record stores each keyword argument
    as it is given. *)
Module AppConfig.
Record t : Type := mk {
  debug : pyval;
  title : pyval;
  app_name : pyval;
  description : pyval;
  version : pyval;
  summary : pyval;
  contact : pyval;
  terms_of_service : pyval;
  license : pyval;
  servers : pyval;
  secret_key : pyval;
  allowed_hosts : pyval;
  allow_origins : pyval;
  permissions : pyval;
  interceptors : pyval;
  dependencies : pyval;
  csrf_config : pyval;
  cors_config : pyval;
  openapi_config : pyval;
  template_config : pyval;
  static_files_config : pyval;
  session_config : pyval;
  response_class : pyval;
  response_cookies : pyval;
  response_headers : pyval;
  scheduler_class : pyval;
  scheduler_tasks : pyval;
  scheduler_configurations : pyval;
  enable_scheduler : pyval;
  timezone : pyval;
  root_path : pyval;
  middleware : loc;
  exception_handlers : option ExceptionHandlers;
  on_startup : pyval;
  on_shutdown : pyval;
  lifespan : pyval;
  tags : pyval;
  include_in_schema : pyval;
  enable_openapi : pyval;
  redirect_slashes : pyval;
  security : pyval
}.
End AppConfig.

(** The fields of the Configuration Record that hold plain values. *)
Inductive field : Type :=
| F_debug
| F_title
| F_app_name
| F_description
| F_version
| F_summary
| F_contact
| F_terms_of_service
| F_license
| F_servers
| F_secret_key
| F_allowed_hosts
| F_allow_origins
| F_permissions
| F_interceptors
| F_dependencies
| F_csrf_config
| F_cors_config
| F_openapi_config
| F_template_config
| F_static_files_config
| F_session_config
| F_response_class
| F_response_cookies
| F_response_headers
| F_scheduler_class
| F_scheduler_tasks
| F_scheduler_configurations
| F_enable_scheduler
| F_timezone
| F_root_path
| F_on_startup
| F_on_shutdown
| F_lifespan
| F_tags
| F_include_in_schema
| F_enable_openapi
| F_redirect_slashes
| F_security.

Definition explicit (f : field) (x : Args.t) : pyval :=
  match f with
  | F_debug => Args.debug x
  | F_title => Args.title x
  | F_app_name => Args.app_name x
  | F_description => Args.description x
  | F_version => Args.version x
  | F_summary => Args.summary x
  | F_contact => Args.contact x
  | F_terms_of_service => Args.terms_of_service x
  | F_license => Args.license x
  | F_servers => Args.servers x
  | F_secret_key => Args.secret_key x
  | F_allowed_hosts => Args.allowed_hosts x
  | F_allow_origins => Args.allow_origins x
  | F_permissions => Args.permissions x
  | F_interceptors => Args.interceptors x
  | F_dependencies => Args.dependencies x
  | F_csrf_config => Args.csrf_config x
  | F_cors_config => Args.cors_config x
  | F_openapi_config => Args.openapi_config x
  | F_template_config => Args.template_config x
  | F_static_files_config => Args.static_files_config x
  | F_session_config => Args.session_config x
  | F_response_class => Args.response_class x
  | F_response_cookies => Args.response_cookies x
  | F_response_headers => Args.response_headers x
  | F_scheduler_class => Args.scheduler_class x
  | F_scheduler_tasks => Args.scheduler_tasks x
  | F_scheduler_configurations => Args.scheduler_configurations x
  | F_enable_scheduler => Args.enable_scheduler x
  | F_timezone => Args.timezone x
  | F_root_path => Args.root_path x
  | F_on_startup => Args.on_startup x
  | F_on_shutdown => Args.on_shutdown x
  | F_lifespan => Args.lifespan x
  | F_tags => Args.tags x
  | F_include_in_schema => Args.include_in_schema x
  | F_enable_openapi => Args.enable_openapi x
  | F_redirect_slashes => Args.redirect_slashes x
  | F_security => Args.security x
  end.

Definition settings_default (f : field) (x : Settings.t) : pyval :=
  match f with
  | F_debug => Settings.debug x
  | F_title => Settings.title x
  | F_app_name => Settings.app_name x
  | F_description => Settings.description x
  | F_version => Settings.version x
  | F_summary => Settings.summary x
  | F_contact => Settings.contact x
  | F_terms_of_service => Settings.terms_of_service x
  | F_license => Settings.license x
  | F_servers => Settings.servers x
  | F_secret_key => Settings.secret_key x
  | F_allowed_hosts => Settings.allowed_hosts x
  | F_allow_origins => Settings.allow_origins x
  | F_permissions => Settings.permissions x
  | F_interceptors => Settings.interceptors x
  | F_dependencies => Settings.dependencies x
  | F_csrf_config => Settings.csrf_config x
  | F_cors_config => Settings.cors_config x
  | F_openapi_config => Settings.openapi_config x
  | F_template_config => Settings.template_config x
  | F_static_files_config => Settings.static_files_config x
  | F_session_config => Settings.session_config x
  | F_response_class => Settings.response_class x
  | F_response_cookies => Settings.response_cookies x
  | F_response_headers => Settings.response_headers x
  | F_scheduler_class => Settings.scheduler_class x
  | F_scheduler_tasks => Settings.scheduler_tasks x
  | F_scheduler_configurations => Settings.scheduler_configurations x
  | F_enable_scheduler => Settings.enable_scheduler x
  | F_timezone => Settings.timezone x
  | F_root_path => Settings.root_path x
  | F_on_startup => Settings.on_startup x
  | F_on_shutdown => Settings.on_shutdown x
  | F_lifespan => Settings.lifespan x
  | F_tags => Settings.tags x
  | F_include_in_schema => Settings.include_in_schema x
  | F_enable_openapi => Settings.enable_openapi x
  | F_redirect_slashes => Settings.redirect_slashes x
  | F_security => Settings.security x
  end.

Definition merged (f : field) (x : AppConfig.t) : pyval :=
  match f with
  | F_debug => AppConfig.debug x
  | F_title => AppConfig.title x
  | F_app_name => AppConfig.app_name x
  | F_description => AppConfig.description x
  | F_version => AppConfig.version x
  | F_summary => AppConfig.summary x
  | F_contact => AppConfig.contact x
  | F_terms_of_service => AppConfig.terms_of_service x
  | F_license => AppConfig.license x
  | F_servers => AppConfig.servers x
  | F_secret_key => AppConfig.secret_key x
  | F_allowed_hosts => AppConfig.allowed_hosts x
  | F_allow_origins => AppConfig.allow_origins x
  | F_permissions => AppConfig.permissions x
  | F_interceptors => AppConfig.interceptors x
  | F_dependencies => AppConfig.dependencies x
  | F_csrf_config => AppConfig.csrf_config x
  | F_cors_config => AppConfig.cors_config x
  | F_openapi_config => AppConfig.openapi_config x
  | F_template_config => AppConfig.template_config x
  | F_static_files_config => AppConfig.static_files_config x
  | F_session_config => AppConfig.session_config x
  | F_response_class => AppConfig.response_class x
  | F_response_cookies => AppConfig.response_cookies x
  | F_response_headers => AppConfig.response_headers x
  | F_scheduler_class => AppConfig.scheduler_class x
  | F_scheduler_tasks => AppConfig.scheduler_tasks x
  | F_scheduler_configurations => AppConfig.scheduler_configurations x
  | F_enable_scheduler => AppConfig.enable_scheduler x
  | F_timezone => AppConfig.timezone x
  | F_root_path => AppConfig.root_path x
  | F_on_startup => AppConfig.on_startup x
  | F_on_shutdown => AppConfig.on_shutdown x
  | F_lifespan => AppConfig.lifespan x
  | F_tags => AppConfig.tags x
  | F_include_in_schema => AppConfig.include_in_schema x
  | F_enable_openapi => AppConfig.enable_openapi x
  | F_redirect_slashes => AppConfig.redirect_slashes x
  | F_security => AppConfig.security x
  end.

(** Lines 195-239: [AppConfig(debug=debug or app_settings.debug, ...)].
    [(middleware or app_settings.middleware) or []] yields one of the two
    list objects, or a new empty one. *)
Definition make_app_config (a : Args.t) (app_settings : Settings.t) (s : store)
    : AppConfig.t * store :=
  let m := or_ref s (Args.middleware a) (Settings.middleware app_settings) in
  let '(middleware, s) :=
    match m with
    | Some l => if truthy_ref s m then (l, s) else alloc [] s
    | None => alloc [] s
    end in
  ({| AppConfig.debug :=
         py_or (Args.debug a) (Settings.debug app_settings);
       AppConfig.title :=
         py_or (Args.title a) (Settings.title app_settings);
       AppConfig.app_name :=
         py_or (Args.app_name a) (Settings.app_name app_settings);
       AppConfig.description :=
         py_or (Args.description a) (Settings.description app_settings);
       AppConfig.version :=
         py_or (Args.version a) (Settings.version app_settings);
       AppConfig.summary :=
         py_or (Args.summary a) (Settings.summary app_settings);
       AppConfig.contact :=
         py_or (Args.contact a) (Settings.contact app_settings);
       AppConfig.terms_of_service :=
         py_or (Args.terms_of_service a) (Settings.terms_of_service app_settings);
       AppConfig.license :=
         py_or (Args.license a) (Settings.license app_settings);
       AppConfig.servers :=
         py_or (Args.servers a) (Settings.servers app_settings);
       AppConfig.secret_key :=
         py_or (Args.secret_key a) (Settings.secret_key app_settings);
       AppConfig.allowed_hosts :=
         py_or (Args.allowed_hosts a) (Settings.allowed_hosts app_settings);
       AppConfig.allow_origins :=
         py_or (Args.allow_origins a) (Settings.allow_origins app_settings);
       AppConfig.permissions :=
         py_or (py_or (Args.permissions a) (Settings.permissions app_settings)) (PList []);
       AppConfig.interceptors :=
         py_or (py_or (Args.interceptors a) (Settings.interceptors app_settings)) (PList []);
       AppConfig.dependencies :=
         py_or (py_or (Args.dependencies a) (Settings.dependencies app_settings)) (PDict []);
       AppConfig.csrf_config :=
         py_or (Args.csrf_config a) (Settings.csrf_config app_settings);
       AppConfig.cors_config :=
         py_or (Args.cors_config a) (Settings.cors_config app_settings);
       AppConfig.openapi_config :=
         py_or (Args.openapi_config a) (Settings.openapi_config app_settings);
       AppConfig.template_config :=
         py_or (Args.template_config a) (Settings.template_config app_settings);
       AppConfig.static_files_config :=
         py_or (Args.static_files_config a) (Settings.static_files_config app_settings);
       AppConfig.session_config :=
         py_or (Args.session_config a) (Settings.session_config app_settings);
       AppConfig.response_class :=
         py_or (Args.response_class a) (Settings.response_class app_settings);
       AppConfig.response_cookies :=
         py_or (Args.response_cookies a) (Settings.response_cookies app_settings);
       AppConfig.response_headers :=
         py_or (Args.response_headers a) (Settings.response_headers app_settings);
       AppConfig.scheduler_class :=
         py_or (Args.scheduler_class a) (Settings.scheduler_class app_settings);
       AppConfig.scheduler_tasks :=
         py_or (py_or (Args.scheduler_tasks a) (Settings.scheduler_tasks app_settings)) (PDict []);
       AppConfig.scheduler_configurations :=
         py_or (py_or (Args.scheduler_configurations a) (Settings.scheduler_configurations app_settings)) (PDict []);
       AppConfig.enable_scheduler :=
         py_or (Args.enable_scheduler a) (Settings.enable_scheduler app_settings);
       AppConfig.timezone :=
         py_or (Args.timezone a) (Settings.timezone app_settings);
       AppConfig.root_path :=
         py_or (Args.root_path a) (Settings.root_path app_settings);
       AppConfig.middleware :=
         middleware;
       AppConfig.exception_handlers :=
         or_handlers (Args.exception_handlers a) (Settings.exception_handlers app_settings);
       AppConfig.on_startup :=
         py_or (Args.on_startup a) (Settings.on_startup app_settings);
       AppConfig.on_shutdown :=
         py_or (Args.on_shutdown a) (Settings.on_shutdown app_settings);
       AppConfig.lifespan :=
         py_or (Args.lifespan a) (Settings.lifespan app_settings);
       AppConfig.tags :=
         py_or (Args.tags a) (Settings.tags app_settings);
       AppConfig.include_in_schema :=
         py_or (Args.include_in_schema a) (Settings.include_in_schema app_settings);
       AppConfig.enable_openapi :=
         py_or (Args.enable_openapi a) (Settings.enable_openapi app_settings);
       AppConfig.redirect_slashes :=
         py_or (Args.redirect_slashes a) (Settings.redirect_slashes app_settings);
       AppConfig.security :=
         py_or (Args.security a) (Settings.security app_settings) |}, s).

(** ** The application object *)

(** What the constructor reads from its surroundings: the process-wide
    [esmerald_settings], attribute access on a custom settings object, the
    call [settings_config()] of a settings class, and the middleware list a
    freshly constructed [Router] carries. *)
Record Env : Type := mkEnv {
  esmerald_settings : Settings.t;
  settings_view : pyval -> Settings.t;
  construct : pyval -> pyval;
  router_default_middleware : list Middleware
}.

(** The attributes of [self].  [config] holds the attributes copied from the
    Configuration Record at lines 241-283 ([self.middleware] is
    [AppConfig.middleware config], the same list object); [routes] and
    [router_middleware] are those of [self.router]. *)
Record Esmerald : Type := mkEsmerald {
  settings_config : pyval;
  config : AppConfig.t;
  exception_handlers : ExceptionHandlers;
  async_exit_config : pyval;
  routes : list route;
  router_middleware : list Middleware;
  user_middleware : list StarletteMiddleware;
  middleware_stack : ASGIApp
}.

Definition get_app_settings (env : Env) (settings_config : pyval) : Settings.t :=
  if truthy settings_config then settings_view env settings_config
  else esmerald_settings env.

Definition get_default_exception_handlers (exception_handlers : ExceptionHandlers)
    : ExceptionHandlers :=
  dict_setdefault (ExcClass CValidationErrorException) validation_error_exception_handler
    (dict_setdefault (ExcClass CImproperlyConfigured)
       improperly_configured_exception_handler exception_handlers).

(** [config.dict()] of a pydantic configuration object. *)
Definition model_dict (v : pyval) : result kwargs :=
  match v with
  | PInst _ _ attrs => ok (map (fun kv => (fst kv, KVal (snd kv))) attrs)
  | _ => raise AttributeError
  end.

(** [middleware if isinstance(middleware, StarletteMiddleware)
     else StarletteMiddleware(middleware)] *)
Definition as_starlette (m : Middleware) : StarletteMiddleware :=
  match m with
  | Wrapped w => w
  | Bare c => mkStarletteMiddleware c []
  end.

(** The middleware the routes contribute (lines 550-552). *)
Definition collect_handlers_middleware (self : Esmerald) : list Middleware :=
  fold_left (fun acc r => acc ++ build_routes_middleware r None)
    (routes self) ([] ++ router_middleware self).

Definition build_user_middleware_stack (self : Esmerald) (s : store)
    : result (list StarletteMiddleware * store) :=
  let cfg := config self in
  let user_middleware := [] in
  let user_middleware :=
    if truthy (AppConfig.allowed_hosts cfg)
    then user_middleware ++
         [mkStarletteMiddleware TrustedHostMiddleware
            [("allowed_hosts", KVal (AppConfig.allowed_hosts cfg))]]
    else user_middleware in
  do user_middleware <-
    (if truthy (AppConfig.cors_config cfg)
     then do options <- model_dict (AppConfig.cors_config cfg);
          ok (user_middleware ++ [mkStarletteMiddleware CORSMiddleware options])
     else ok user_middleware);
  let user_middleware :=
    if truthy (AppConfig.csrf_config cfg)
    then user_middleware ++
         [mkStarletteMiddleware CSRFMiddleware
            [("config", KVal (AppConfig.csrf_config cfg))]]
    else user_middleware in
  do user_middleware <-
    (if truthy (AppConfig.session_config cfg)
     then do options <- model_dict (AppConfig.session_config cfg);
          ok (user_middleware ++ [mkStarletteMiddleware SessionMiddleware options])
     else ok user_middleware);
  let handlers_middleware := collect_handlers_middleware self in
  (* self.middleware += handlers_middleware *)
  let s := extend s (AppConfig.middleware cfg) handlers_middleware in
  let user_middleware :=
    fold_left (fun acc m => acc ++ [as_starlette m])
      (deref s (AppConfig.middleware cfg)) user_middleware in
  ok (user_middleware, s).

(** [key in (500, Exception)] *)
Definition is_catch_all (key : exc_key) : bool :=
  bool_decide (key = StatusCode 500) || bool_decide (key = ExcClass CException).

(** Lines 578-585: the loop over [self.exception_handlers.items()]. *)
Definition split_handlers (handlers : ExceptionHandlers)
    : option handler_fn * ExceptionHandlers :=
  fold_left
    (fun st kv =>
       if is_catch_all (fst kv) then (Some (snd kv), snd st)
       else (fst st, dict_set (fst kv) (snd kv) (snd st)))
    handlers (None, []).

(** Lines 587-588: the handlers of every route are merged on top. *)
Definition merge_route_handlers (rs : list route) (exception_handlers : ExceptionHandlers)
    : ExceptionHandlers :=
  fold_left
    (fun acc r => dict_update acc (build_routes_exception_handlers r None))
    rs exception_handlers.

(** Lines 590-608: the list the chain is built from. *)
Definition middleware_list (self : Esmerald) : list StarletteMiddleware :=
  let debug := AppConfig.debug (config self) in
  let '(error_handler, exception_handlers) := split_handlers (exception_handlers self) in
  let exception_handlers := merge_route_handlers (routes self) exception_handlers in
  [mkStarletteMiddleware EsmeraldAPIExceptionMiddleware
     [("exception_handlers", KHandlers exception_handlers);
      ("error_handler", KHandler error_handler);
      ("debug", KVal debug)]]
  ++ user_middleware self
  ++ [mkStarletteMiddleware ExceptionMiddleware
        [("handlers", KHandlers exception_handlers); ("debug", KVal debug)];
      mkStarletteMiddleware AsyncExitStackMiddleware
        [("config", KVal (async_exit_config self))]].

Definition build_middleware_stack (self : Esmerald) : ASGIApp :=
  let middleware := middleware_list self in
  (* app = self.router; for cls, options in reversed(middleware): ... *)
  fold_left (fun app m => Layer (mw_cls m) (mw_options m) app)
    (rev middleware) RouterApp.

(** Lines 173-185. *)
Definition check_settings_config (env : Env) (settings_config : pyval) : result pyval :=
  if truthy settings_config then
    if negb (isinstance settings_config CEsmeraldAPISettings)
       || negb (is_class_and_subclass settings_config (PClass CEsmeraldAPISettings))
    then raise (ImproperlyConfigured
                  "settings_config must be a subclass of EsmeraldSettings")
    else if isinstance settings_config CEsmeraldAPISettings
    then ok settings_config
    else if is_class_and_subclass settings_config (PClass CEsmeraldAPISettings)
    then ok (construct env settings_config)
    else ok PNone
  else ok PNone.

(** Lines 187-189; assertions are enabled. *)
Definition check_lifespan (a : Args.t) : result unit :=
  if is_None (Args.lifespan a)
     || (is_None (Args.on_startup a) && is_None (Args.on_shutdown a))
  then ok tt
  else raise (AssertionError
                "Use either 'lifespan' or 'on_startup'/'on_shutdown', not both.").

(** Lines 191-192. *)
Definition check_cors (a : Args.t) : result unit :=
  if truthy (Args.allow_origins a) && truthy (Args.cors_config a)
  then raise (ImproperlyConfigured
                "It can be only allow_origins or cors_config but not both.")
  else ok tt.

(** [Esmerald.__init__], lines 173-303: the checks, the Configuration Record,
    the router and the two stacks.  The router is constructed, and so the
    routes are registered, only after the three checks.  The steps after line
    303 (template engine, static files, scheduler, OpenAPI) belong to
    collaborators and are left out. *)
Definition init (env : Env) (a : Args.t) (s : store) : result (Esmerald * store) :=
  do settings_config <- check_settings_config env (Args.settings_config a);
  do _ <- check_lifespan a;
  do _ <- check_cors a;
  let app_settings := get_app_settings env settings_config in
  let '(app_config, s) := make_app_config a app_settings s in
  let exception_handlers :=
    match AppConfig.exception_handlers app_config with
    | None => []
    | Some h => h
    end in
  let async_exit_config := Settings.async_exit_config (esmerald_settings env) in
  (* self.router = Router(..., routes=routes, ...) *)
  let routes := default [] (Args.routes a) in
  let exception_handlers := get_default_exception_handlers exception_handlers in
  let self :=
    mkEsmerald settings_config app_config exception_handlers async_exit_config
      routes (router_default_middleware env) [] RouterApp in
  do (user_middleware, s) <- build_user_middleware_stack self s;
  let self :=
    mkEsmerald settings_config app_config exception_handlers async_exit_config
      routes (router_default_middleware env) user_middleware RouterApp in
  let self :=
    mkEsmerald settings_config app_config exception_handlers async_exit_config
      routes (router_default_middleware env) user_middleware
      (build_middleware_stack self) in
  ok (self, s).

(** ** Sample calls

    [call] is [Esmerald(...)] with the named keyword arguments and every
    other one left at its default [None]. *)
Definition call
    (settings_config allow_origins cors_config lifespan on_startup on_shutdown
       permissions : pyval)
    (routes : option (list route)) (middleware : option loc)
    (exception_handlers : option ExceptionHandlers)
    : Args.t :=
  {| Args.settings_config := settings_config;
     Args.debug := PNone;
     Args.app_name := PNone;
     Args.title := PNone;
     Args.version := PNone;
     Args.summary := PNone;
     Args.description := PNone;
     Args.contact := PNone;
     Args.terms_of_service := PNone;
     Args.license := PNone;
     Args.security := PNone;
     Args.servers := PNone;
     Args.secret_key := PNone;
     Args.allowed_hosts := PNone;
     Args.allow_origins := allow_origins;
     Args.permissions := permissions;
     Args.interceptors := PNone;
     Args.dependencies := PNone;
     Args.csrf_config := PNone;
     Args.openapi_config := PNone;
     Args.cors_config := cors_config;
     Args.static_files_config := PNone;
     Args.template_config := PNone;
     Args.session_config := PNone;
     Args.response_class := PNone;
     Args.response_cookies := PNone;
     Args.response_headers := PNone;
     Args.scheduler_class := PNone;
     Args.scheduler_tasks := PNone;
     Args.scheduler_configurations := PNone;
     Args.enable_scheduler := PNone;
     Args.timezone := PNone;
     Args.routes := routes;
     Args.root_path := PNone;
     Args.middleware := middleware;
     Args.exception_handlers := exception_handlers;
     Args.on_startup := on_startup;
     Args.on_shutdown := on_shutdown;
     Args.lifespan := lifespan;
     Args.tags := PNone;
     Args.include_in_schema := PNone;
     Args.deprecated := PNone;
     Args.enable_openapi := PNone;
     Args.redirect_slashes := PNone |}.

(** A settings object with the named attributes and [None] everywhere else. *)
Definition settings_with (allowed_hosts permissions : pyval)
    (middleware : option loc) (async_exit_config : pyval)
    : Settings.t :=
  {| Settings.debug := PNone;
     Settings.title := PNone;
     Settings.app_name := PNone;
     Settings.description := PNone;
     Settings.version := PNone;
     Settings.summary := PNone;
     Settings.contact := PNone;
     Settings.terms_of_service := PNone;
     Settings.license := PNone;
     Settings.servers := PNone;
     Settings.secret_key := PNone;
     Settings.allowed_hosts := allowed_hosts;
     Settings.allow_origins := PNone;
     Settings.permissions := permissions;
     Settings.interceptors := PNone;
     Settings.dependencies := PNone;
     Settings.csrf_config := PNone;
     Settings.cors_config := PNone;
     Settings.openapi_config := PNone;
     Settings.template_config := PNone;
     Settings.static_files_config := PNone;
     Settings.session_config := PNone;
     Settings.response_class := PNone;
     Settings.response_cookies := PNone;
     Settings.response_headers := PNone;
     Settings.scheduler_class := PNone;
     Settings.scheduler_tasks := PNone;
     Settings.scheduler_configurations := PNone;
     Settings.enable_scheduler := PNone;
     Settings.timezone := PNone;
     Settings.root_path := PNone;
     Settings.middleware := middleware;
     Settings.exception_handlers := None;
     Settings.on_startup := PNone;
     Settings.on_shutdown := PNone;
     Settings.lifespan := PNone;
     Settings.tags := PNone;
     Settings.include_in_schema := PNone;
     Settings.enable_openapi := PNone;
     Settings.redirect_slashes := PNone;
     Settings.security := PNone;
     Settings.async_exit_config := async_exit_config |}.

Definition bare_settings : Settings.t := settings_with PNone PNone None PNone.

Definition bare_env : Env :=
  mkEnv bare_settings (fun _ => bare_settings) (fun v => v) [].

(** ** Outcomes of the constructor's checks *)

Definition settings_config_error : exn :=
  ImproperlyConfigured "settings_config must be a subclass of EsmeraldSettings".
Definition lifespan_error : exn :=
  AssertionError "Use either 'lifespan' or 'on_startup'/'on_shutdown', not both.".
Definition cors_error : exn :=
  ImproperlyConfigured "It can be only allow_origins or cors_config but not both.".

(** The lifespan assertion's condition. *)
Definition lifespan_exclusive (a : Args.t) : bool :=
  is_None (Args.lifespan a)
  || (is_None (Args.on_startup a) && is_None (Args.on_shutdown a)).

(** A user subclass of the settings class, an instance of it and a CORS
    configuration object. *)
Definition AppSettings : cls := Cnamed "AppSettings" CEsmeraldAPISettings.
Definition app_settings_instance : pyval := PInst AppSettings true [].
Definition cors_config_object : pyval :=
  PInst (Cnamed "CORSConfig" (Cnamed "BaseModel" Cobject)) true
    [("allow_origins", PList [PStr "https://example.org"])].

(** [Esmerald(settings_config=AppSettings())] *)
Definition call_settings_instance : Args.t :=
  call app_settings_instance PNone PNone PNone PNone PNone PNone None None None.

(** [Esmerald(settings_config={})] *)
Definition call_settings_empty_dict : Args.t :=
  call (PDict []) PNone PNone PNone PNone PNone PNone None None None.

(** [Esmerald(lifespan=lifespan, on_startup=[])] *)
Definition call_lifespan_and_startup : Args.t :=
  call PNone PNone PNone (PFun "lifespan") (PList []) PNone PNone None None None.

(** [Esmerald(allow_origins=["*"], cors_config=CORSConfig(...))] *)
Definition call_origins_and_cors : Args.t :=
  call PNone (PList [PStr "*"]) cors_config_object PNone PNone PNone PNone
    None None None.

(** [Esmerald(allow_origins=["*"], cors_config=CORSConfig(...),
     lifespan=lifespan, on_startup=[startup])] *)
Definition call_origins_cors_lifespan_startup : Args.t :=
  call PNone (PList [PStr "*"]) cors_config_object (PFun "lifespan")
    (PList [PFun "startup"]) PNone PNone None None None.

(** The fields written [(x or default) or []] and [x or default or {}], with
    the literal that closes them. *)
Definition empty_literal (f : field) : option pyval :=
  match f with
  | F_permissions | F_interceptors => Some (PList [])
  | F_dependencies | F_scheduler_tasks | F_scheduler_configurations =>
      Some (PDict [])
  | _ => None
  end.

(** [Esmerald()] *)
Definition call_no_arguments : Args.t :=
  call PNone PNone PNone PNone PNone PNone PNone None None None.

(** ** Reading a built chain *)

(** The layers of a chain, outermost first. *)
Fixpoint layers (app : ASGIApp) : list StarletteMiddleware :=
  match app with
  | RouterApp => []
  | Layer c options app' => mkStarletteMiddleware c options :: layers app'
  end.

(** [cls(app=previous, **options)] for every entry, the last entry first. *)
Definition wrap_all (ms : list StarletteMiddleware) (target : ASGIApp) : ASGIApp :=
  fold_right (fun m app => Layer (mw_cls m) (mw_options m) app) target ms.

Fixpoint count_class (c : mw_class) (ms : list StarletteMiddleware) : nat :=
  match ms with
  | [] => 0
  | m :: ms' => (if decide (mw_cls m = c) then 1 else 0) + count_class c ms'
  end.

(** How many layers of class [c] the builder itself puts into a chain. *)
Definition boundary_layers (c : mw_class) : nat :=
  match c with
  | EsmeraldAPIExceptionMiddleware | ExceptionMiddleware
  | AsyncExitStackMiddleware => 1
  | _ => 0
  end.

(** The handlers handed to the two exception layers, and the designated
    error handler. *)
Definition per_kind_handlers (self : Esmerald) : ExceptionHandlers :=
  merge_route_handlers (routes self) (snd (split_handlers (exception_handlers self))).

Definition error_handler (self : Esmerald) : option handler_fn :=
  fst (split_handlers (exception_handlers self)).

(** The value of the last entry keyed by a catch-all marker. *)
Fixpoint last_catch_all (handlers : ExceptionHandlers) : option handler_fn :=
  match handlers with
  | [] => None
  | (k, v) :: handlers' =>
      match last_catch_all handlers' with
      | Some w => Some w
      | None => if is_catch_all k then Some v else None
      end
  end.

(** ** Reading a route tree *)

(** What a route at the top level of the application contributes. *)
Definition gateway_middleware (r : route) : list Middleware :=
  match r with
  | Gateway middleware _ handler
  | WebSocketGateway middleware _ handler =>
      middleware ++ default [] (handler_middleware handler)
  | Include _ _ _ _ | OtherRoute _ => []
  end.

(** The collection as the specification words it: every Gateway anywhere in
    the tree, those below an Include that is not a nested application
    included. *)
Fixpoint gateway_middleware_deep (r : route) : list Middleware :=
  match r with
  | Include app routes _ _ =>
      if is_nested_application app then []
      else flat_map gateway_middleware_deep routes
  | _ => gateway_middleware r
  end.

(** The tree with everything behind a nested-application boundary removed:
    the nested application and the routes it exposes. *)
Fixpoint erase (r : route) : route :=
  match r with
  | Include app routes middleware exception_handlers =>
      if is_nested_application app
      then Include (EsmeraldApp [] [] []) [] middleware exception_handlers
      else Include app (map erase routes) middleware exception_handlers
  | _ => r
  end.

Definition set_routes (rs : list route) (self : Esmerald) : Esmerald :=
  mkEsmerald (settings_config self) (config self) (exception_handlers self)
    (async_exit_config self) rs (router_middleware self) (user_middleware self)
    (middleware_stack self).

(** A pydantic object, whose [dict()] exists. *)
Definition is_model (v : pyval) : bool :=
  match v with PInst _ _ _ => true | _ => false end.

(** A built-in middleware is configured when its configuration is truthy. *)
Definition when_configured (v : pyval) (c : mw_class) : list mw_class :=
  if truthy v then [c] else [].

(** What the routes alone contribute to the handlers. *)
Definition route_handlers (rs : list route) : ExceptionHandlers :=
  merge_route_handlers rs [].

(** An application with one route whose Gateway registers a handler for
    [Exception]. *)
Definition plain_handler : Handler := mkHandler None None.

Definition app_with_route_catch_all : Esmerald :=
  mkEsmerald PNone (fst (make_app_config call_no_arguments bare_settings []))
    (get_default_exception_handlers [])
    PNone
    [Gateway [] [(ExcClass CException, "route_error_handler")] plain_handler]
    [] [] RouterApp.

(** ** The scenario of two routes

    Global middleware [M0]; the first route declares [M1], the second route
    declares none.  The caller's list [[M0]] is the object at location 0. *)
Definition M0 : mw_class := UserMiddleware "M0".
Definition M1 : mw_class := UserMiddleware "M1".

Definition scenario_store : store := [[Bare M0]].

Definition scenario_call : Args.t :=
  call PNone PNone PNone PNone PNone PNone PNone
    (Some [Gateway [Bare M1] [] plain_handler; Gateway [] [] plain_handler])
    (Some 0) None.

(** A Gateway declaring [M1] below an Include that is not a nested
    application. *)
Definition included_gateway : route :=
  Include NoApp [Gateway [Bare M1] [] plain_handler] [] [].

(** An application with host validation and CORS configured, global
    middleware [M0] and the two routes of the scenario, before its stacks
    are built. *)
Definition configured_app : Esmerald :=
  mkEsmerald PNone
    (fst (make_app_config
            (call PNone PNone cors_config_object PNone PNone PNone PNone
               None (Some 0) None)
            (settings_with (PList [PStr "*"]) PNone None PNone)
            scenario_store))
    (get_default_exception_handlers [])
    PNone
    [Gateway [Bare M1] [] plain_handler; Gateway [] [] plain_handler]
    [] [] RouterApp.

(** An Include whose app is a nested application with a route, a middleware
    and handlers of its own; the Include itself registers a handler for 403. *)
Definition nested_include : route :=
  Include
    (ChildEsmeraldApp
       [Gateway [Bare M1] [(ExcClass CException, "inner_error_handler")]
          plain_handler]
       [Bare M0] [(StatusCode 404, "inner_not_found")])
    [Gateway [Bare M1] [(ExcClass CException, "inner_error_handler")]
       plain_handler]
    [] [(StatusCode 403, "include_forbidden")].

(** * The rest of the application object *)

(** ** Hooks

    [self.on_startup] and [self.on_shutdown] are attributes copied from the
    Configuration Record; assigning to them is an update of [config]. *)





(** ** [add_router] *)







(** ** [__call__]

    The scope is a dict from strings; [SApp] is the application itself.
    The two awaited collaborators are the outcomes; a scope without
    ["type"] raises [KeyError] once ["app"] has been set. *)

Inductive scope_value : Type :=
| SApp
| SVal (v : pyval).

Abbreviation Scope := (list (string * scope_value)) (only parsing).

Inductive call_outcome : Type :=
| RouterLifespan (scope : Scope)
| StarletteCall (scope : Scope)
| KeyError (scope : Scope).

(** [scope["type"] == "lifespan"] *)
Definition is_lifespan (v : scope_value) : bool :=
  match v with
  | SVal (PStr s) => String.eqb s "lifespan"
  | _ => false
  end.

Definition call_ (self : Esmerald) (scope : Scope) : call_outcome :=
  let scope := dict_set "app" SApp scope in
  match dict_get "type" scope with
  | None => KeyError scope
  | Some type_ =>
      if is_lifespan type_ then RouterLifespan scope
      else
        let scope :=
          if truthy (AppConfig.root_path (config self))
          then dict_set "root_path" (SVal (AppConfig.root_path (config self))) scope
          else scope in
        let scope := dict_set "state" (SVal (PDict [])) scope in
        StarletteCall scope
  end.

(** The scope an outcome carries. *)
Definition outcome_scope (o : call_outcome) : Scope :=
  match o with
  | RouterLifespan scope | StarletteCall scope | KeyError scope => scope
  end.

(** ** Reading a construction *)

(** The three checks of the constructor pass. *)
Definition checks_pass (a : Args.t) : bool :=
  negb (truthy (Args.settings_config a))
  && lifespan_exclusive a
  && negb (truthy (Args.allow_origins a) && truthy (Args.cors_config a)).

(** [self] as it stands at line 301, before the two stacks are built, for a
    construction that reads the process-wide settings. *)
Definition app_before_stacks (env : Env) (a : Args.t) (s : list (list Middleware))
    : Esmerald :=
  let cfg := fst (make_app_config a (esmerald_settings env) s) in
  mkEsmerald PNone cfg
    (get_default_exception_handlers
       (match AppConfig.exception_handlers cfg with
        | None => []
        | Some h => h
        end))
    (Settings.async_exit_config (esmerald_settings env))
    (default [] (Args.routes a)) (router_default_middleware env) [] RouterApp.

(** [self] once [user_middleware] and then [middleware_stack] are assigned
    (lines 302-303). *)
Definition with_stacks (um : list StarletteMiddleware) (self : Esmerald) : Esmerald :=
  let self :=
    mkEsmerald (settings_config self) (config self) (exception_handlers self)
      (async_exit_config self) (routes self) (router_middleware self) um
      (middleware_stack self) in
  mkEsmerald (settings_config self) (config self) (exception_handlers self)
    (async_exit_config self) (routes self) (router_middleware self) um
    (build_middleware_stack self).



(** Lines 533-548 on their own: the built-in middleware, in the order the
    builder appends it. *)
Definition builtin_middleware (cfg : AppConfig.t) : result (list StarletteMiddleware) :=
  let user_middleware := [] in
  let user_middleware :=
    if truthy (AppConfig.allowed_hosts cfg)
    then user_middleware ++
         [mkStarletteMiddleware TrustedHostMiddleware
            [("allowed_hosts", KVal (AppConfig.allowed_hosts cfg))]]
    else user_middleware in
  do user_middleware <-
    (if truthy (AppConfig.cors_config cfg)
     then do options <- model_dict (AppConfig.cors_config cfg);
          ok (user_middleware ++ [mkStarletteMiddleware CORSMiddleware options])
     else ok user_middleware);
  let user_middleware :=
    if truthy (AppConfig.csrf_config cfg)
    then user_middleware ++
         [mkStarletteMiddleware CSRFMiddleware
            [("config", KVal (AppConfig.csrf_config cfg))]]
    else user_middleware in
  (if truthy (AppConfig.session_config cfg)
   then do options <- model_dict (AppConfig.session_config cfg);
        ok (user_middleware ++ [mkStarletteMiddleware SessionMiddleware options])
   else ok user_middleware).



(** The handler the application registers by default for a kind. *)
Definition default_handler (k : exc_key) : option handler_fn :=
  if decide (k = ExcClass CImproperlyConfigured)
  then Some improperly_configured_exception_handler
  else if decide (k = ExcClass CValidationErrorException)
       then Some validation_error_exception_handler
       else None.


(** The walk over the children of an Include (lines 511-514), from a given
    dict. *)
Definition walk_children (rs : list route) (d : ExceptionHandlers)
    : ExceptionHandlers :=
  fold_left (fun acc r => build_routes_exception_handlers r (Some acc)) rs d.

(** A Gateway and its bound handler registering the same kind, below an
    Include that registers it too. *)
Definition forbidden : exc_key := StatusCode 403.

Definition overriding_handler : Handler :=
  mkHandler None (Some [(forbidden, "handler_forbidden")]).

Definition overriding_gateway : route :=
  Gateway [] [(forbidden, "gateway_forbidden")] overriding_handler.

Definition overriding_include : route :=
  Include NoApp [Gateway [] [(forbidden, "gateway_forbidden")] plain_handler]
    [] [(forbidden, "include_forbidden")].

(** ** Reading [add_router] *)









(** An HTTP scope that arrives with a state and a root path of its own, and
    a lifespan scope. *)
Definition http_scope : list (string * scope_value) :=
  [("type", SVal (PStr "http"));
   ("root_path", SVal (PStr "/proxy"));
   ("state", SVal (PDict [("user", PStr "alice")]))].

Definition lifespan_scope : list (string * scope_value) :=
  [("type", SVal (PStr "lifespan"))].

(** * Properties *)

(** ** The constructor's checks *)

(** No value is at once an instance of the settings class and a class (or
    generic) deriving from it. *)
Lemma settings_condition_always_holds (v : pyval) :
  negb (isinstance v CEsmeraldAPISettings)
  || negb (is_class_and_subclass v (PClass CEsmeraldAPISettings)) = true.
Proof.
  destruct v; try reflexivity.
  unfold is_class_and_subclass; simpl.
  apply orb_true_r.
Qed.

Lemma check_settings_config_eq (env : Env) (v : pyval) :
  check_settings_config env v =
  if truthy v then raise settings_config_error else ok PNone.
Proof.
  unfold check_settings_config.
  destruct (truthy v); [|reflexivity].
  now rewrite settings_condition_always_holds.
Qed.

Lemma check_lifespan_eq (a : Args.t) :
  check_lifespan a = if lifespan_exclusive a then ok tt else raise lifespan_error.
Proof. reflexivity. Qed.

(** The three checks decide the outcome before anything else runs. *)
Lemma init_checks (env : Env) (a : Args.t) (s : store) :
  (truthy (Args.settings_config a) = true ->
   init env a s = raise settings_config_error) /\
  (truthy (Args.settings_config a) = false -> lifespan_exclusive a = false ->
   init env a s = raise lifespan_error) /\
  (truthy (Args.settings_config a) = false -> lifespan_exclusive a = true ->
   truthy (Args.allow_origins a) && truthy (Args.cors_config a) = true ->
   init env a s = raise cors_error).
Proof.
  unfold init.
  rewrite check_settings_config_eq, check_lifespan_eq.
  unfold check_cors.
  repeat split; intros.
  - now rewrite H.
  - now rewrite H, H0.
  - rewrite H, H0; simpl. now rewrite H1.
Qed.

(** C10, as stated, fails: an empty dict is not [None], the guard
    [if settings_config:] skips the validation, and construction succeeds. *)
Lemma settings_config_falsy_accepted :
  Args.settings_config call_settings_empty_dict <> PNone /\
  exists r, init bare_env call_settings_empty_dict [] = ok r.
Proof.
  split; [discriminate|].
  eexists. vm_compute. reflexivity.
Qed.

(** C10 (amended). For every truthy value passed as [settings_config],
    a settings instance and a settings subclass included, construction raises
    [ImproperlyConfigured]: an instance of the settings class is never a class
    deriving from it, and a class is never an instance of it.
    [is_class_and_subclass] returns a boolean on every input, and [False] on
    every input that is neither a class nor a parameterised generic. *)
Theorem settings_config_truthy_rejected (env : Env) (a : Args.t) (s : store) :
  truthy (Args.settings_config a) = true ->
  init env a s = raise settings_config_error
  /\ (forall v, isinstance v CEsmeraldAPISettings = true ->
        is_class_and_subclass v (PClass CEsmeraldAPISettings) = false)
  /\ (forall v, is_class_and_subclass v (PClass CEsmeraldAPISettings) = true ->
        isinstance v CEsmeraldAPISettings = false)
  /\ (forall v t, isclass v = false -> get_origin v = None ->
        is_class_and_subclass v t = false).
Proof.
  intros Hsc. split; [|split; [|split]].
  - now apply init_checks.
  - intros v Hv. pose proof (settings_condition_always_holds v) as H.
    rewrite Hv in H. simpl in H. now apply negb_true_iff in H.
  - intros v Hv. pose proof (settings_condition_always_holds v) as H.
    rewrite Hv in H. rewrite orb_false_r in H. now apply negb_true_iff in H.
  - intros v t Hc Ho. unfold is_class_and_subclass.
    now rewrite Ho, Hc.
Qed.

Lemma settings_config_truthy_rejected_witness :
  truthy (Args.settings_config call_settings_instance) = true /\
  init bare_env call_settings_instance [] = raise settings_config_error.
Proof.
  split; [reflexivity|].
  apply (settings_config_truthy_rejected bare_env call_settings_instance []).
  reflexivity.
Defined.

(** C8. Supplying a lifespan callback together with a non-[None] [on_startup]
    or [on_shutdown] makes construction fail: the assertion raises (or, when
    [settings_config] is truthy, the settings check just before it does); no
    application is ever returned. *)
Theorem lifespan_with_hooks_rejected (env : Env) (a : Args.t) (s : store) :
  is_None (Args.lifespan a) = false ->
  is_None (Args.on_startup a) = false \/ is_None (Args.on_shutdown a) = false ->
  init env a s =
  raise (if truthy (Args.settings_config a)
         then settings_config_error else lifespan_error).
Proof.
  intros Hl Hh.
  assert (lifespan_exclusive a = false) as Hx.
  { unfold lifespan_exclusive. rewrite Hl. simpl.
    destruct Hh as [-> | ->]; [reflexivity | apply andb_false_r]. }
  destruct (truthy (Args.settings_config a)) eqn:Hsc.
  - now apply init_checks.
  - now apply init_checks.
Qed.

Lemma lifespan_with_hooks_rejected_witness :
  init bare_env call_lifespan_and_startup [] = raise lifespan_error.
Proof.
  apply (lifespan_with_hooks_rejected bare_env call_lifespan_and_startup []).
  - reflexivity.
  - left. reflexivity.
Defined.

(** C7, as stated, fails: with a lifespan callback and a startup list also
    supplied, the assertion at line 187 raises [AssertionError] before the
    check of [allow_origins] and [cors_config] is reached. *)
Lemma origins_and_cors_assertion_first :
  truthy (Args.allow_origins call_origins_cors_lifespan_startup) = true /\
  truthy (Args.cors_config call_origins_cors_lifespan_startup) = true /\
  init bare_env call_origins_cors_lifespan_startup [] = raise lifespan_error.
Proof. repeat split. Qed.

(** C7 (amended). For every pair of truthy values, supplying both
    [allow_origins] and [cors_config] makes construction fail synchronously,
    before the router is built and any route registered.  The error is
    [ImproperlyConfigured], except when a lifespan callback comes with a
    non-[None] [on_startup] or [on_shutdown] and [settings_config] is falsy:
    then the lifespan assertion fails first. *)
Theorem origins_and_cors_rejected (env : Env) (a : Args.t) (s : store) :
  truthy (Args.allow_origins a) = true ->
  truthy (Args.cors_config a) = true ->
  init env a s =
  raise (if truthy (Args.settings_config a) then settings_config_error
         else if lifespan_exclusive a then cors_error
         else lifespan_error).
Proof.
  intros Ho Hc.
  destruct (truthy (Args.settings_config a)) eqn:Hsc.
  - now apply init_checks.
  - destruct (lifespan_exclusive a) eqn:Hx.
    + apply init_checks; try assumption. now rewrite Ho, Hc.
    + now apply init_checks.
Qed.

Lemma origins_and_cors_rejected_witness :
  init bare_env call_origins_and_cors [] = raise cors_error.
Proof.
  apply (origins_and_cors_rejected bare_env call_origins_and_cors []);
    reflexivity.
Defined.

(** ** The Configuration Record *)

(** C1, as stated, fails: with neither an explicit [permissions] nor a
    settings default, the merged field is the empty list, not the default
    [None]. *)
Lemma permissions_defaults_to_empty_list :
  merged F_permissions (fst (make_app_config call_no_arguments bare_settings []))
  <> (if truthy (explicit F_permissions call_no_arguments)
      then explicit F_permissions call_no_arguments
      else settings_default F_permissions bare_settings).
Proof. vm_compute. discriminate. Qed.

(** C1 (amended). Every field of the merged Configuration Record is the
    explicit argument when that is truthy, and the settings default
    otherwise; for [permissions], [interceptors] and [middleware] a falsy
    default is replaced by an empty list, and for [dependencies],
    [scheduler_tasks] and [scheduler_configurations] by an empty dict.  The
    middleware field is the very list object that was chosen, or a new one. *)
Theorem merged_field_explicit_or_default
    (a : Args.t) (app_settings : Settings.t) (s : store) :
  let cfg := fst (make_app_config a app_settings s) in
  let s' := snd (make_app_config a app_settings s) in
  (forall f : field,
     merged f cfg =
     if truthy (explicit f a) then explicit f a
     else match empty_literal f with
          | None => settings_default f app_settings
          | Some literal =>
              if truthy (settings_default f app_settings)
              then settings_default f app_settings else literal
          end)
  /\ AppConfig.exception_handlers cfg =
     (if nonempty (Args.exception_handlers a) then Args.exception_handlers a
      else Settings.exception_handlers app_settings)
  /\ Some (AppConfig.middleware cfg) =
     (if truthy_ref s (Args.middleware a) then Args.middleware a
      else if truthy_ref s (Settings.middleware app_settings)
           then Settings.middleware app_settings
           else Some (length s))
  /\ s' =
     (if truthy_ref s (Args.middleware a)
         || truthy_ref s (Settings.middleware app_settings)
      then s else s ++ [[]]).
Proof.
  unfold make_app_config, or_ref.
  set (m := if truthy_ref s (Args.middleware a) then Args.middleware a
            else Settings.middleware app_settings).
  set (chosen := match m with
                 | Some l => if truthy_ref s m then (l, s) else alloc [] s
                 | None => alloc [] s
                 end).
  assert (chosen =
          if truthy_ref s m then (default 0 m, s) else (length s, s ++ [[]]))
    as Hchosen.
  { subst chosen. destruct m as [l|]; [|reflexivity].
    now destruct (truthy_ref s (Some l)). }
  destruct chosen as [l s1] eqn:Hc. simpl.
  split; [|split; [reflexivity|]].
  - intros f. unfold py_or.
    destruct f; simpl;
      repeat match goal with |- context [truthy ?v] => destruct (truthy v) eqn:? end;
      congruence.
  - subst m.
    destruct (truthy_ref s (Args.middleware a)) eqn:Ha; simpl.
    + rewrite Ha in Hchosen. injection Hchosen as -> ->.
      destruct (Args.middleware a); [now split | discriminate].
    + destruct (truthy_ref s (Settings.middleware app_settings)) eqn:Hs;
        injection Hchosen as -> ->.
      * destruct (Settings.middleware app_settings); [now split | discriminate].
      * now split.
Qed.


(** ** The middleware chain *)

Lemma build_middleware_stack_wrap_all (self : Esmerald) :
  build_middleware_stack self = wrap_all (middleware_list self) RouterApp.
Proof.
  unfold build_middleware_stack, wrap_all.
  generalize (middleware_list self). intros ms.
  rewrite <- (fold_left_rev_right _ (rev ms)).
  now rewrite rev_involutive.
Qed.

Lemma layers_wrap_all (ms : list StarletteMiddleware) (target : ASGIApp) :
  layers (wrap_all ms target) = ms ++ layers target.
Proof.
  induction ms as [|[c o] ms IH]; simpl; [reflexivity|].
  now rewrite IH.
Qed.

Lemma wrap_all_app (ms ns : list StarletteMiddleware) (target : ASGIApp) :
  wrap_all (ms ++ ns) target = wrap_all ms (wrap_all ns target).
Proof. unfold wrap_all. apply fold_right_app. Qed.

Lemma count_class_app (c : mw_class) (ms ns : list StarletteMiddleware) :
  count_class c (ms ++ ns) = count_class c ms + count_class c ns.
Proof.
  induction ms as [|m ms IH]; simpl; [reflexivity|].
  rewrite IH. lia.
Qed.

(** The list the chain is built from, with its two ends named. *)
Lemma middleware_list_eq (self : Esmerald) :
  middleware_list self =
  [mkStarletteMiddleware EsmeraldAPIExceptionMiddleware
     [("exception_handlers", KHandlers (per_kind_handlers self));
      ("error_handler", KHandler (error_handler self));
      ("debug", KVal (AppConfig.debug (config self)))]]
  ++ user_middleware self
  ++ [mkStarletteMiddleware ExceptionMiddleware
        [("handlers", KHandlers (per_kind_handlers self));
         ("debug", KVal (AppConfig.debug (config self)))];
      mkStarletteMiddleware AsyncExitStackMiddleware
        [("config", KVal (async_exit_config self))]].
Proof.
  unfold middleware_list, per_kind_handlers, error_handler.
  now destruct (split_handlers (exception_handlers self)).
Qed.

(** C2. Whatever the user middleware (none, one or many entries), the chain
    is: one typed-error boundary outermost, the user middleware in order, one
    catch-all exception layer, the resource-scope layer, and the router as
    the innermost target; it is built by wrapping the router with the entries
    of that list taken in reverse.  The builder adds exactly one layer of
    each of its three classes. *)
Theorem middleware_chain_shape (self : Esmerald) :
  exists outer catch_all exit_stack : kwargs,
    build_middleware_stack self =
      Layer EsmeraldAPIExceptionMiddleware outer
        (wrap_all (user_middleware self)
           (Layer ExceptionMiddleware catch_all
              (Layer AsyncExitStackMiddleware exit_stack RouterApp)))
    /\ layers (build_middleware_stack self) =
       [mkStarletteMiddleware EsmeraldAPIExceptionMiddleware outer]
       ++ user_middleware self
       ++ [mkStarletteMiddleware ExceptionMiddleware catch_all;
           mkStarletteMiddleware AsyncExitStackMiddleware exit_stack]
    /\ layers (build_middleware_stack self) = middleware_list self
    /\ build_middleware_stack self =
       fold_left (fun app m => Layer (mw_cls m) (mw_options m) app)
         (rev (layers (build_middleware_stack self))) RouterApp
    /\ length (layers (build_middleware_stack self)) =
       length (user_middleware self) + 3
    /\ forall c : mw_class,
         count_class c (layers (build_middleware_stack self)) =
         boundary_layers c + count_class c (user_middleware self).
Proof.
  pose proof (build_middleware_stack_wrap_all self) as Hb.
  pose proof (middleware_list_eq self) as Hl.
  assert (layers (build_middleware_stack self) = middleware_list self) as Hlay.
  { rewrite Hb, layers_wrap_all. simpl. apply app_nil_r. }
  eexists _, _, _.
  split; [|split; [|split; [|split; [|split]]]].
  - rewrite Hb, Hl. simpl. rewrite wrap_all_app. reflexivity.
  - rewrite Hlay. exact Hl.
  - exact Hlay.
  - rewrite Hlay. reflexivity.
  - rewrite Hlay, Hl. simpl. rewrite length_app. simpl. lia.
  - intros c. rewrite Hlay, Hl.
    rewrite !count_class_app. simpl.
    destruct c; simpl; repeat case_decide; try congruence; lia.
Qed.

(** ** Exception handlers *)

Section dict_lemmas.
Context {K V : Type} `{EqDecision K}.
Implicit Types (k : K) (v : V) (d : list (K * V)).

Lemma dict_get_set_eq k v d : dict_get k (dict_set k v d) = Some v.
Proof.
  induction d as [|[k' v'] d IH]; simpl.
  - now rewrite decide_True.
  - destruct (decide (k = k')) as [->|Hne]; simpl.
    + now rewrite decide_True.
    + now rewrite decide_False.
Qed.

Lemma dict_get_set_ne k k' v d :
  k <> k' -> dict_get k' (dict_set k v d) = dict_get k' d.
Proof.
  intros Hne. induction d as [|[k0 v0] d IH]; simpl.
  - rewrite decide_False; [reflexivity | congruence].
  - destruct (decide (k = k0)) as [->|Hk]; simpl.
    + rewrite !decide_False; [reflexivity | congruence | congruence].
    + destruct (decide (k' = k0)); [reflexivity | exact IH].
Qed.

Lemma dict_get_None k d : k ∉ dict_keys d -> dict_get k d = None.
Proof.
  induction d as [|[k0 v0] d IH]; simpl; [reflexivity|].
  intros Hn. apply not_elem_of_cons in Hn as [Hne Hn].
  rewrite decide_False; [now apply IH | exact Hne].
Qed.

(** A lookup after [update]: the other dict wins. *)
Lemma dict_get_update k d other :
  dict_get k (dict_update d other) =
  match dict_get k (dict_update [] other) with
  | Some v => Some v
  | None => dict_get k d
  end.
Proof.
  unfold dict_update.
  revert d. induction other as [|[k0 v0] other IH]; intros d; simpl.
  - reflexivity.
  - rewrite IH. rewrite (IH [(k0, v0)]).
    destruct (dict_get k (fold_left
      (fun acc kv => dict_set (fst kv) (snd kv) acc) other [])); [reflexivity|].
    simpl. destruct (decide (k = k0)) as [->|Hne].
    + apply dict_get_set_eq.
    + apply dict_get_set_ne. congruence.
Qed.
End dict_lemmas.

Lemma split_handlers_fst (h : ExceptionHandlers) (e : option handler_fn)
    (acc : ExceptionHandlers) :
  fst (fold_left
         (fun st kv =>
            if is_catch_all (fst kv) then (Some (snd kv), snd st)
            else (fst st, dict_set (fst kv) (snd kv) (snd st)))
         h (e, acc)) =
  match last_catch_all h with
  | Some w => Some w
  | None => e
  end.
Proof.
  revert e acc. induction h as [|[k v] h IH]; intros e acc; simpl.
  - reflexivity.
  - destruct (is_catch_all k); simpl; rewrite IH;
      now destruct (last_catch_all h).
Qed.

Lemma split_handlers_snd (h : ExceptionHandlers) (e : option handler_fn)
    (acc : ExceptionHandlers) (k : exc_key) :
  NoDup (dict_keys h) ->
  dict_get k (snd (fold_left
         (fun st kv =>
            if is_catch_all (fst kv) then (Some (snd kv), snd st)
            else (fst st, dict_set (fst kv) (snd kv) (snd st)))
         h (e, acc))) =
  if is_catch_all k then dict_get k acc
  else match dict_get k h with
       | Some v => Some v
       | None => dict_get k acc
       end.
Proof.
  revert e acc. induction h as [|[k0 v0] h IH]; intros e acc Hnd; simpl.
  - now destruct (is_catch_all k).
  - apply NoDup_cons in Hnd as [Hfresh Hnd].
    destruct (is_catch_all k0) eqn:Hk0; simpl; rewrite (IH _ _ Hnd).
    + destruct (is_catch_all k) eqn:Hk; [reflexivity|].
      rewrite decide_False; [reflexivity | congruence].
    + destruct (decide (k = k0)) as [->|Hne].
      * rewrite Hk0. rewrite (dict_get_None k0 h Hfresh).
        apply dict_get_set_eq.
      * rewrite (dict_get_set_ne k0 k); [|congruence].
        reflexivity.
Qed.

Lemma merge_route_handlers_get (rs : list route) (d : ExceptionHandlers)
    (k : exc_key) :
  dict_get k (merge_route_handlers rs d) =
  match dict_get k (route_handlers rs) with
  | Some v => Some v
  | None => dict_get k d
  end.
Proof.
  unfold route_handlers, merge_route_handlers.
  revert d. induction rs as [|r rs IH]; intros d; simpl.
  - reflexivity.
  - rewrite IH.
    rewrite (IH (dict_update [] (build_routes_exception_handlers r None))).
    destruct (dict_get k (fold_left _ rs [])); [reflexivity|].
    apply dict_get_update.
Qed.

(** C3, as stated, fails for what the routes contribute: a Gateway's handler
    for [Exception] stays in the per-kind map and is not the designated
    error handler. *)
Lemma route_catch_all_stays_per_kind :
  is_catch_all (ExcClass CException) = true /\
  dict_get (ExcClass CException) (per_kind_handlers app_with_route_catch_all)
  = Some "route_error_handler" /\
  error_handler app_with_route_catch_all = None.
Proof. repeat split. Qed.

(** C3 (amended). The application-level handler map is partitioned: every
    entry keyed by [Exception] or [500] is kept out of the per-kind map, and
    the last of them is the designated error handler; every other
    application-level entry stays in the per-kind map.  The handlers the
    routes contribute are merged on top as they are: a route's entry for any
    key, a catch-all marker included, is in the per-kind map, ahead of the
    application-level entry for that key, and is never the error handler.
    Both exception layers of the chain receive this per-kind map. *)
Theorem handlers_partition (self : Esmerald) :
  NoDup (dict_keys (exception_handlers self)) ->
  error_handler self = last_catch_all (exception_handlers self)
  /\ (forall k : exc_key,
        dict_get k (snd (split_handlers (exception_handlers self))) =
        if is_catch_all k then None else dict_get k (exception_handlers self))
  /\ (forall k : exc_key,
        dict_get k (per_kind_handlers self) =
        match dict_get k (route_handlers (routes self)) with
        | Some v => Some v
        | None =>
            if is_catch_all k then None
            else dict_get k (exception_handlers self)
        end)
  /\ head (layers (build_middleware_stack self)) =
     Some (mkStarletteMiddleware EsmeraldAPIExceptionMiddleware
             [("exception_handlers", KHandlers (per_kind_handlers self));
              ("error_handler", KHandler (error_handler self));
              ("debug", KVal (AppConfig.debug (config self)))]).
Proof.
  intros Hnd.
  assert (forall k : exc_key,
            dict_get k (snd (split_handlers (exception_handlers self))) =
            if is_catch_all k then None
            else dict_get k (exception_handlers self)) as Hsplit.
  { intros k. unfold split_handlers. rewrite split_handlers_snd by exact Hnd.
    simpl. destruct (is_catch_all k); [reflexivity|].
    now destruct (dict_get k (exception_handlers self)). }
  split; [|split; [exact Hsplit|split]].
  - unfold error_handler, split_handlers. rewrite split_handlers_fst.
    now destruct (last_catch_all (exception_handlers self)).
  - intros k. unfold per_kind_handlers.
    rewrite merge_route_handlers_get, Hsplit. reflexivity.
  - rewrite build_middleware_stack_wrap_all, layers_wrap_all.
    rewrite middleware_list_eq. reflexivity.
Qed.

Lemma handlers_partition_witness :
  error_handler app_with_route_catch_all =
  last_catch_all (exception_handlers app_with_route_catch_all).
Proof.
  apply (handlers_partition app_with_route_catch_all).
  apply (@bool_decide_unpack
           (NoDup (dict_keys (exception_handlers app_with_route_catch_all))) _).
  vm_compute. exact I.
Defined.

(** ** Middleware contributed by the routes *)

Lemma build_routes_middleware_eq (r : route) :
  build_routes_middleware r None = gateway_middleware r.
Proof.
  destruct r as [app rs mw eh | mw eh h | mw eh h | n]; simpl.
  - now destruct (is_nested_application app).
  - destruct (handler_middleware h) as [[|m ms]|]; simpl;
      [now rewrite app_nil_r | reflexivity | now rewrite app_nil_r].
  - destruct (handler_middleware h) as [[|m ms]|]; simpl;
      [now rewrite app_nil_r | reflexivity | now rewrite app_nil_r].
  - reflexivity.
Qed.

Lemma collect_handlers_middleware_eq (self : Esmerald) :
  collect_handlers_middleware self =
  router_middleware self ++ flat_map gateway_middleware (routes self).
Proof.
  unfold collect_handlers_middleware. simpl.
  generalize (router_middleware self) as acc.
  induction (routes self) as [|r rs IH]; intros acc; simpl.
  - symmetry. apply app_nil_r.
  - rewrite IH, build_routes_middleware_eq. now rewrite <- app_assoc.
Qed.

(** C6, as stated, fails: the middleware of a Gateway below an Include that
    is not a nested application is not collected. *)
Lemma included_gateway_not_collected :
  is_nested_application NoApp (R := route) = false /\
  gateway_middleware_deep included_gateway = [Bare M1] /\
  build_routes_middleware included_gateway None = [].
Proof. repeat split. Qed.

(** C6 (amended). The collection visits the routes at the top level of the
    application only: for each Gateway or WebSocketGateway among them it
    appends the Gateway's middleware list and then its handler's middleware
    list; an Include contributes nothing, whatever lies below it. *)
Theorem route_middleware_top_level_only (self : Esmerald) :
  collect_handlers_middleware self =
    router_middleware self ++ flat_map gateway_middleware (routes self)
  /\ (forall mw eh h,
        build_routes_middleware (Gateway mw eh h) None =
        mw ++ default [] (handler_middleware h))
  /\ (forall mw eh h,
        build_routes_middleware (WebSocketGateway mw eh h) None =
        mw ++ default [] (handler_middleware h))
  /\ (forall app rs mw eh,
        build_routes_middleware (Include app rs mw eh) None = []).
Proof.
  split; [apply collect_handlers_middleware_eq|].
  repeat split; intros; apply build_routes_middleware_eq.
Qed.

(** ** The store *)

Lemma deref_extend_eq (s : store) (l : loc) (xs : list Middleware) :
  l < length s -> deref (extend s l xs) l = deref s l ++ xs.
Proof.
  intros Hl. unfold extend, deref.
  now rewrite list_lookup_insert_eq.
Qed.

Lemma lookup_extend_ne (s : store) (l l' : loc) (xs : list Middleware) :
  l' <> l -> extend s l xs !! l' = s !! l'.
Proof.
  intros Hne. unfold extend.
  apply list_lookup_insert_ne. congruence.
Qed.

Lemma length_extend (s : store) (l : loc) (xs : list Middleware) :
  length (extend s l xs) = length s.
Proof. unfold extend. apply length_insert. Qed.

(** ** The user middleware *)

Lemma fold_as_starlette (ms : list Middleware) (acc : list StarletteMiddleware) :
  fold_left (fun acc m => acc ++ [as_starlette m]) ms acc =
  acc ++ map as_starlette ms.
Proof.
  revert acc. induction ms as [|m ms IH]; intros acc; simpl.
  - symmetry. apply app_nil_r.
  - rewrite IH. now rewrite <- app_assoc.
Qed.

(** What a successful run of the builder has done. *)
Lemma build_user_middleware_stack_inv (self : Esmerald) (s s' : store)
    (um : list StarletteMiddleware) :
  build_user_middleware_stack self s = ok (um, s') ->
  s' = extend s (AppConfig.middleware (config self))
         (collect_handlers_middleware self)
  /\ exists builtin : list StarletteMiddleware,
       um = builtin
            ++ map as_starlette (deref s' (AppConfig.middleware (config self)))
       /\ map mw_cls builtin =
          when_configured (AppConfig.allowed_hosts (config self)) TrustedHostMiddleware
          ++ when_configured (AppConfig.cors_config (config self)) CORSMiddleware
          ++ when_configured (AppConfig.csrf_config (config self)) CSRFMiddleware
          ++ when_configured (AppConfig.session_config (config self)) SessionMiddleware.
Proof.
  unfold build_user_middleware_stack, when_configured.
  intros H.
  destruct (truthy (AppConfig.allowed_hosts (config self)));
    destruct (truthy (AppConfig.cors_config (config self)));
    destruct (truthy (AppConfig.csrf_config (config self)));
    destruct (truthy (AppConfig.session_config (config self)));
    simpl in H;
    repeat match type of H with
           | context [model_dict ?v] => destruct (model_dict v); simpl in H
           end;
    try discriminate H;
    injection H as <- <-;
    (split; [reflexivity|]);
    rewrite fold_as_starlette;
    eexists; (split; [reflexivity|reflexivity]).
Qed.

(** The builder fails only on a configuration that has no [dict()]. *)
Lemma build_user_middleware_stack_succeeds (self : Esmerald) (s : store) :
  (truthy (AppConfig.cors_config (config self)) = true ->
   is_model (AppConfig.cors_config (config self)) = true) ->
  (truthy (AppConfig.session_config (config self)) = true ->
   is_model (AppConfig.session_config (config self)) = true) ->
  exists r, build_user_middleware_stack self s = ok r.
Proof.
  unfold build_user_middleware_stack.
  intros Hc Hs.
  destruct (truthy (AppConfig.cors_config (config self))).
  - specialize (Hc eq_refl).
    destruct (AppConfig.cors_config (config self)); try discriminate Hc.
    destruct (truthy (AppConfig.session_config (config self))).
    + specialize (Hs eq_refl).
      destruct (AppConfig.session_config (config self)); try discriminate Hs.
      eexists. reflexivity.
    + eexists. reflexivity.
  - destruct (truthy (AppConfig.session_config (config self))).
    + specialize (Hs eq_refl).
      destruct (AppConfig.session_config (config self)); try discriminate Hs.
      eexists. reflexivity.
    + eexists. reflexivity.
Qed.

(** C5. The user middleware list is: the built-in middleware in the order
    host-allow-list validator, CORS, CSRF, session, each present exactly when
    its configuration is truthy; then the application's declared middleware in
    declaration order; then what the router and the routes contribute.  In
    the scenario (global [M0]; the first route declares [M1], the second
    none) the list is [M0, M1]. *)
Theorem user_middleware_order (self : Esmerald) (s : store) :
  AppConfig.middleware (config self) < length s ->
  (truthy (AppConfig.cors_config (config self)) = true ->
   is_model (AppConfig.cors_config (config self)) = true) ->
  (truthy (AppConfig.session_config (config self)) = true ->
   is_model (AppConfig.session_config (config self)) = true) ->
  (exists (builtin : list StarletteMiddleware) (s' : store),
     build_user_middleware_stack self s =
       ok (builtin
           ++ map as_starlette (deref s (AppConfig.middleware (config self)))
           ++ map as_starlette (router_middleware self)
           ++ map as_starlette (flat_map gateway_middleware (routes self)),
           s')
     /\ map mw_cls builtin =
        when_configured (AppConfig.allowed_hosts (config self)) TrustedHostMiddleware
        ++ when_configured (AppConfig.cors_config (config self)) CORSMiddleware
        ++ when_configured (AppConfig.csrf_config (config self)) CSRFMiddleware
        ++ when_configured (AppConfig.session_config (config self)) SessionMiddleware)
  /\ (exists (app : Esmerald) (s' : store),
        init bare_env scenario_call scenario_store = ok (app, s')
        /\ user_middleware app =
           [mkStarletteMiddleware M0 []; mkStarletteMiddleware M1 []]).
Proof.
  intros Hl Hc Hs. split.
  - destruct (build_user_middleware_stack_succeeds self s Hc Hs) as [[um s'] Hr].
    destruct (build_user_middleware_stack_inv self s s' um Hr)
      as [Hs' (builtin & Hum & Hb)].
    exists builtin, s'. split; [|exact Hb].
    rewrite Hr, Hum, Hs'. rewrite (deref_extend_eq _ _ _ Hl).
    rewrite collect_handlers_middleware_eq.
    now rewrite !map_app.
  - eexists _, _. split; [vm_compute; reflexivity|reflexivity].
Qed.

Lemma user_middleware_order_witness :
  exists r, build_user_middleware_stack configured_app scenario_store = ok r.
Proof.
  destruct (user_middleware_order configured_app scenario_store)
    as [(builtin & s' & Hr & _) _].
  - simpl. lia.
  - intros _. reflexivity.
  - intros H. discriminate H.
  - eexists. exact Hr.
Defined.

(** ** The middleware list as a shared object *)

(** C9, as stated, fails: construction extends the caller's list [[M0]] in
    place to [[M0, M1]], and building the user middleware again on the
    constructed application extends the same object once more. *)
Lemma middleware_list_mutated_in_place :
  exists (app : Esmerald) (s1 : store) (um : list StarletteMiddleware)
         (s2 : store),
    init bare_env scenario_call scenario_store = ok (app, s1)
    /\ Args.middleware scenario_call = Some (AppConfig.middleware (config app))
    /\ deref scenario_store (AppConfig.middleware (config app)) = [Bare M0]
    /\ deref s1 (AppConfig.middleware (config app)) = [Bare M0; Bare M1]
    /\ build_user_middleware_stack app s1 = ok (um, s2)
    /\ deref s2 (AppConfig.middleware (config app))
       = [Bare M0; Bare M1; Bare M1].
Proof.
  eexists _, _, _, _.
  split; [vm_compute; reflexivity|].
  split; [reflexivity|].
  split; [reflexivity|].
  split; [reflexivity|].
  split; [vm_compute; reflexivity|reflexivity].
Qed.

(** C9 (amended). Of the two stack-building operations,
    [build_middleware_stack] writes nothing, and [build_user_middleware_stack]
    writes to one object only: it extends the application's middleware list,
    the list object held in the Configuration Record, in place by what the
    router and the routes contribute, keeping the entries it had.  Every other
    list object, and every other field of the record, is left as it was. *)
Theorem stack_building_frame (self : Esmerald) (s s' : store)
    (um : list StarletteMiddleware) :
  AppConfig.middleware (config self) < length s ->
  build_user_middleware_stack self s = ok (um, s') ->
  deref s' (AppConfig.middleware (config self)) =
    deref s (AppConfig.middleware (config self))
    ++ router_middleware self ++ flat_map gateway_middleware (routes self)
  /\ (forall l' : loc,
        l' <> AppConfig.middleware (config self) -> s' !! l' = s !! l')
  /\ length s' = length s.
Proof.
  intros Hl Hr.
  destruct (build_user_middleware_stack_inv self s s' um Hr) as [-> _].
  split; [|split].
  - rewrite (deref_extend_eq _ _ _ Hl).
    now rewrite collect_handlers_middleware_eq.
  - intros l' Hne. now apply lookup_extend_ne.
  - apply length_extend.
Qed.

Lemma stack_building_frame_witness :
  exists (um : list StarletteMiddleware) (s' : store),
    build_user_middleware_stack configured_app scenario_store = ok (um, s')
    /\ length s' = length scenario_store.
Proof.
  eexists _, _. split; [vm_compute; reflexivity|].
  refine (proj2 (proj2
            (stack_building_frame configured_app scenario_store _ _ _ _))).
  - simpl. lia.
  - vm_compute. reflexivity.
Defined.

(** ** Nested applications *)

Section route_induction.
Variable P : route -> Prop.
Hypothesis P_Include : forall app rs mw eh,
  Forall P rs -> P (Include app rs mw eh).
Hypothesis P_Gateway : forall mw eh h, P (Gateway mw eh h).
Hypothesis P_WebSocketGateway : forall mw eh h, P (WebSocketGateway mw eh h).
Hypothesis P_OtherRoute : forall n, P (OtherRoute n).

(** Induction on a route tree, with the property available for every
    child of an Include. *)
Fixpoint route_tree_ind (r : route) : P r :=
  match r with
  | Include app rs mw eh =>
      P_Include app rs mw eh
        ((fix children (rs : list route) : Forall P rs :=
            match rs with
            | [] => @List.Forall_nil _ P
            | r' :: rs' =>
                @List.Forall_cons _ P r' rs' (route_tree_ind r') (children rs')
            end) rs)
  | Gateway mw eh h => P_Gateway mw eh h
  | WebSocketGateway mw eh h => P_WebSocketGateway mw eh h
  | OtherRoute n => P_OtherRoute n
  end.
End route_induction.

Lemma fold_handlers_erase (rs : list route) :
  Forall (fun r => forall acc,
            build_routes_exception_handlers (erase r) acc =
            build_routes_exception_handlers r acc) rs ->
  forall acc : ExceptionHandlers,
    fold_left (fun acc r => build_routes_exception_handlers r (Some acc))
      (map erase rs) acc =
    fold_left (fun acc r => build_routes_exception_handlers r (Some acc))
      rs acc.
Proof.
  induction 1 as [|r rs Hr _ IH]; intros acc; simpl.
  - reflexivity.
  - now rewrite Hr, IH.
Qed.

Lemma build_routes_exception_handlers_erase (r : route)
    (acc : option ExceptionHandlers) :
  build_routes_exception_handlers (erase r) acc =
  build_routes_exception_handlers r acc.
Proof.
  revert acc. induction r as [app rs mw eh IH | | | ] using route_tree_ind;
    intros acc; try reflexivity.
  simpl. destruct (is_nested_application app) eqn:Happ; simpl.
  - reflexivity.
  - rewrite Happ. apply fold_handlers_erase. exact IH.
Qed.

Lemma build_routes_middleware_erase (r : route)
    (acc : option (list Middleware)) :
  build_routes_middleware (erase r) acc = build_routes_middleware r acc.
Proof.
  destruct r as [app rs mw eh | | | ]; try reflexivity.
  unfold erase, build_routes_middleware.
  destruct (is_nested_application app) eqn:Happ; simpl; rewrite ?Happ;
    now destruct (nonempty acc).
Qed.

Lemma merge_route_handlers_erase (rs : list route) (d : ExceptionHandlers) :
  merge_route_handlers (map erase rs) d = merge_route_handlers rs d.
Proof.
  unfold merge_route_handlers.
  revert d. induction rs as [|r rs IH]; intros d; simpl.
  - reflexivity.
  - now rewrite build_routes_exception_handlers_erase, IH.
Qed.

Lemma collect_handlers_middleware_erase (self : Esmerald) :
  collect_handlers_middleware (set_routes (map erase (routes self)) self) =
  collect_handlers_middleware self.
Proof.
  unfold collect_handlers_middleware. simpl.
  generalize (router_middleware self) as acc.
  induction (routes self) as [|r rs IH]; intros acc; simpl.
  - reflexivity.
  - now rewrite build_routes_middleware_erase, IH.
Qed.

(** C4. Nothing behind a nested-application boundary reaches the parent:
    both walks return at such an Include without looking at the nested
    application or at the routes it exposes, so the merged handlers, the
    user middleware and the chain are those of the tree with every nested
    application emptied.  At the boundary the handler walk has merged the
    Include's own handlers only, and the middleware walk nothing. *)
Theorem nested_application_opaque :
  (forall r acc,
     build_routes_exception_handlers (erase r) acc =
     build_routes_exception_handlers r acc)
  /\ (forall r acc,
        build_routes_middleware (erase r) acc = build_routes_middleware r acc)
  /\ (forall self : Esmerald,
        build_middleware_stack (set_routes (map erase (routes self)) self) =
        build_middleware_stack self)
  /\ (forall (self : Esmerald) (s : store),
        build_user_middleware_stack (set_routes (map erase (routes self)) self) s =
        build_user_middleware_stack self s)
  /\ (forall app rs mw eh,
        is_nested_application app = true ->
        build_routes_exception_handlers (Include app rs mw eh) None =
          dict_update [] eh
        /\ build_routes_middleware (Include app rs mw eh) None = []).
Proof.
  split; [exact build_routes_exception_handlers_erase|].
  split; [exact build_routes_middleware_erase|].
  split; [|split].
  - intros self. rewrite !build_middleware_stack_wrap_all, !middleware_list_eq.
    unfold per_kind_handlers, error_handler, set_routes.
    cbn [routes exception_handlers config user_middleware async_exit_config].
    now rewrite merge_route_handlers_erase.
  - intros self s. unfold build_user_middleware_stack.
    now rewrite collect_handlers_middleware_erase.
  - intros app rs mw eh Happ. simpl. now rewrite Happ.
Qed.

Lemma nested_application_opaque_witness :
  build_routes_exception_handlers nested_include None
  = [(StatusCode 403, "include_forbidden")]
  /\ build_routes_middleware nested_include None = [].
Proof.
  apply (proj2 (proj2 (proj2 (proj2 nested_application_opaque)))).
  reflexivity.
Defined.

(** * Further properties *)

(** ** The constructor as a whole *)

Lemma checks_pass_inv (a : Args.t) :
  checks_pass a = true ->
  truthy (Args.settings_config a) = false
  /\ lifespan_exclusive a = true
  /\ truthy (Args.allow_origins a) && truthy (Args.cors_config a) = false.
Proof.
  unfold checks_pass. intros H.
  apply andb_true_iff in H as [H H3]. apply andb_true_iff in H as [H1 H2].
  apply negb_true_iff in H1, H3. auto.
Qed.

(** When a check fails the constructor raises, and which error. *)
Lemma init_checks_fail (env : Env) (a : Args.t) (s : list (list Middleware)) :
  checks_pass a = false ->
  init env a s =
  raise (if truthy (Args.settings_config a) then settings_config_error
         else if lifespan_exclusive a then cors_error else lifespan_error).
Proof.
  unfold checks_pass. intros H.
  destruct (truthy (Args.settings_config a)) eqn:Hsc.
  - now apply init_checks.
  - destruct (lifespan_exclusive a) eqn:Hx.
    + simpl in H. apply negb_false_iff in H. now apply init_checks.
    + now apply init_checks.
Qed.

(** When the checks pass the constructor is the two builders run on the
    merged record. *)
Lemma init_checks_pass (env : Env) (a : Args.t) (s : list (list Middleware)) :
  checks_pass a = true ->
  init env a s =
  match build_user_middleware_stack (app_before_stacks env a s)
          (snd (make_app_config a (esmerald_settings env) s)) with
  | inl e => inl e
  | inr (um, s') => ok (with_stacks um (app_before_stacks env a s), s')
  end.
Proof.
  intros H. apply checks_pass_inv in H as (Hsc & Hx & Hc).
  unfold init. rewrite check_settings_config_eq, check_lifespan_eq.
  unfold check_cors. rewrite Hsc, Hx, Hc. simpl.
  unfold app_before_stacks, get_app_settings. simpl.
  destruct (make_app_config a (esmerald_settings env) s) as [cfg s0]. simpl.
  destruct (build_user_middleware_stack _ s0) as [e|[um s']]; reflexivity.
Qed.


Lemma init_ok_inv (env : Env) (a : Args.t) (s s' : list (list Middleware))
    (app : Esmerald) :
  init env a s = ok (app, s') ->
  checks_pass a = true
  /\ exists um : list StarletteMiddleware,
       build_user_middleware_stack (app_before_stacks env a s)
         (snd (make_app_config a (esmerald_settings env) s)) = ok (um, s')
       /\ app = with_stacks um (app_before_stacks env a s).
Proof.
  intros H.
  destruct (checks_pass a) eqn:Hc.
  - split; [reflexivity|].
    rewrite (init_checks_pass env a s Hc) in H.
    destruct (build_user_middleware_stack _ _) as [e|[um s1]];
      [discriminate H|].
    injection H as <- <-. now exists um.
  - rewrite (init_checks_fail env a s Hc) in H. discriminate H.
Qed.




(** X3. An application that has been constructed never holds a custom
    settings object: its [settings_config] is [None] and every field of its
    record was merged with the process-wide settings. *)
Theorem constructed_app_reads_global_settings
    (env : Env) (a : Args.t) (s s' : list (list Middleware)) (app : Esmerald) :
  init env a s = ok (app, s') ->
  settings_config app = PNone
  /\ truthy (Args.settings_config a) = false
  /\ config app = fst (make_app_config a (esmerald_settings env) s)
  /\ async_exit_config app = Settings.async_exit_config (esmerald_settings env).
Proof.
  intros H. apply init_ok_inv in H as (Hc & um & _ & ->).
  apply checks_pass_inv in Hc as (Hsc & _).
  repeat split; assumption || reflexivity.
Qed.

Lemma constructed_app_reads_global_settings_witness :
  exists app s',
    init bare_env scenario_call scenario_store = ok (app, s')
    /\ settings_config app = PNone.
Proof.
  eexists _, _. split; [vm_compute; reflexivity|].
  refine (proj1 (constructed_app_reads_global_settings
                   bare_env scenario_call scenario_store _ _ _)).
  vm_compute. reflexivity.
Defined.

(** ** The store across a construction *)











(** ** Building the user middleware, again *)

(** The builder is the built-in part followed by the extension of the list
    object; only the built-in part can fail, and it does not read the
    store. *)
Lemma build_user_middleware_stack_eq (self : Esmerald)
    (s : list (list Middleware)) :
  build_user_middleware_stack self s =
  match builtin_middleware (config self) with
  | inl e => inl e
  | inr builtin =>
      let s' := extend s (AppConfig.middleware (config self))
                  (collect_handlers_middleware self) in
      ok (builtin
          ++ map as_starlette (deref s' (AppConfig.middleware (config self))),
          s')
  end.
Proof.
  unfold build_user_middleware_stack, builtin_middleware.
  destruct (truthy (AppConfig.allowed_hosts (config self)));
    destruct (truthy (AppConfig.cors_config (config self)));
    destruct (truthy (AppConfig.csrf_config (config self)));
    destruct (truthy (AppConfig.session_config (config self)));
    simpl;
    repeat match goal with
           | |- context [model_dict ?v] => destruct (model_dict v); simpl
           end;
    try reflexivity;
    now rewrite fold_as_starlette.
Qed.

(** X7. Building the user middleware is not idempotent: a second run on the
    same application succeeds whenever the first did, appends what the router
    and the routes contribute once more to the application's list object, and
    returns the first result followed by that contribution again. *)
Theorem build_user_middleware_stack_twice (self : Esmerald)
    (s s1 : list (list Middleware)) (um1 : list StarletteMiddleware) :
  AppConfig.middleware (config self) < length s ->
  build_user_middleware_stack self s = ok (um1, s1) ->
  exists s2 : list (list Middleware),
    build_user_middleware_stack self s1 =
      ok (um1 ++ map as_starlette (collect_handlers_middleware self), s2)
    /\ deref s2 (AppConfig.middleware (config self)) =
       deref s (AppConfig.middleware (config self))
       ++ collect_handlers_middleware self ++ collect_handlers_middleware self.
Proof.
  intros Hl H1.
  rewrite build_user_middleware_stack_eq in H1.
  rewrite build_user_middleware_stack_eq.
  destruct (builtin_middleware (config self)) as [e|builtin];
    [discriminate H1|].
  simpl in H1. injection H1 as <- <-.
  eexists. split.
  - cbv zeta.
    rewrite !deref_extend_eq by (rewrite ?length_extend; exact Hl).
    rewrite !map_app, <- !app_assoc. reflexivity.
  - rewrite !deref_extend_eq by (rewrite ?length_extend; exact Hl).
    now rewrite <- app_assoc.
Qed.

Lemma build_user_middleware_stack_twice_witness :
  exists um1 s1,
    build_user_middleware_stack configured_app scenario_store = ok (um1, s1)
    /\ exists s2,
         build_user_middleware_stack configured_app s1 =
         ok (um1 ++ map as_starlette (collect_handlers_middleware configured_app),
             s2).
Proof.
  eexists _, _. split; [vm_compute; reflexivity|].
  edestruct (build_user_middleware_stack_twice configured_app scenario_store)
    as (s2 & H2 & _).
  - simpl. lia.
  - vm_compute. reflexivity.
  - exists s2. exact H2.
Defined.

(** ** What a constructed application holds *)







(** ** More on dictionaries *)

Section dict_more.
Context {K V : Type} `{EqDecision K}.
Implicit Types (k : K) (v : V) (d : list (K * V)).

Lemma dict_get_None_inv k d : dict_get k d = None -> k ∉ dict_keys d.
Proof.
  induction d as [|[k0 v0] d IH]; simpl.
  - intros _. apply not_elem_of_nil.
  - destruct (decide (k = k0)) as [->|Hne]; [discriminate|].
    intros Hn. apply not_elem_of_cons. split; [exact Hne | now apply IH].
Qed.

Lemma dict_set_absent k v d :
  dict_get k d = None -> dict_set k v d = d ++ [(k, v)].
Proof.
  induction d as [|[k0 v0] d IH]; simpl; [reflexivity|].
  destruct (decide (k = k0)); [discriminate|].
  intros Hn. now rewrite IH.
Qed.

Lemma dict_keys_set_present k v d :
  is_Some (dict_get k d) -> dict_keys (dict_set k v d) = dict_keys d.
Proof.
  induction d as [|[k0 v0] d IH]; simpl.
  - intros [x Hx]. discriminate Hx.
  - destruct (decide (k = k0)) as [->|Hne]; simpl; [reflexivity|].
    intros Hs. now rewrite IH.
Qed.

Lemma NoDup_dict_set k v d :
  NoDup (dict_keys d) -> NoDup (dict_keys (dict_set k v d)).
Proof.
  intros Hnd. destruct (dict_get k d) as [x|] eqn:Hk.
  - rewrite dict_keys_set_present; [exact Hnd | now exists x].
  - rewrite (dict_set_absent k v d Hk). unfold dict_keys. rewrite map_app.
    simpl. apply NoDup_app. repeat split.
    + exact Hnd.
    + intros k' Hin Hin'. apply list_elem_of_singleton in Hin' as ->.
      now apply dict_get_None_inv in Hk.
    + apply NoDup_singleton.
Qed.

Lemma NoDup_dict_update d other :
  NoDup (dict_keys d) -> NoDup (dict_keys (dict_update d other)).
Proof.
  unfold dict_update. revert d.
  induction other as [|[k v] other IH]; intros d Hnd; simpl; [exact Hnd|].
  apply IH. now apply NoDup_dict_set.
Qed.

Lemma dict_get_setdefault k k' v d :
  dict_get k' (dict_setdefault k v d) =
  match dict_get k' d with
  | Some x => Some x
  | None => if decide (k' = k) then Some v else None
  end.
Proof.
  unfold dict_setdefault. destruct (dict_get k d) as [x|] eqn:Hk.
  - destruct (dict_get k' d) eqn:Hk'; [reflexivity|].
    destruct (decide (k' = k)) as [->|]; [congruence | reflexivity].
  - destruct (decide (k' = k)) as [->|Hne].
    + now rewrite dict_get_set_eq, Hk.
    + rewrite dict_get_set_ne by congruence. now destruct (dict_get k' d).
Qed.

(** Copying a dict without duplicate keys into an empty one keeps every
    lookup. *)
Lemma dict_get_update_nil k d :
  NoDup (dict_keys d) -> dict_get k (dict_update [] d) = dict_get k d.
Proof.
  induction d as [|[k0 v0] d IH]; intros Hnd; [reflexivity|].
  apply NoDup_cons in Hnd as [Hfresh Hnd].
  change (dict_update [] ((k0, v0) :: d)) with (dict_update [(k0, v0)] d).
  rewrite dict_get_update, (IH Hnd). simpl.
  destruct (decide (k = k0)) as [->|Hne].
  - now rewrite (dict_get_None k0 d Hfresh).
  - now destruct (dict_get k d).
Qed.
End dict_more.

(** ** The default exception handlers *)

Lemma default_keys_differ :
  ExcClass CImproperlyConfigured <> ExcClass CValidationErrorException.
Proof. discriminate. Qed.

Lemma get_default_exception_handlers_get (h : ExceptionHandlers) (k : exc_key) :
  dict_get k (get_default_exception_handlers h) =
  match dict_get k h with
  | Some v => Some v
  | None => default_handler k
  end.
Proof.
  unfold get_default_exception_handlers, default_handler.
  rewrite !dict_get_setdefault.
  destruct (dict_get k h); [reflexivity|].
  destruct (decide (k = ExcClass CImproperlyConfigured)) as [->|Hne];
    reflexivity.
Qed.


(** X10. [get_default_exception_handlers] never replaces a handler the map
    already has: a kind that is registered keeps its handler, the two default
    kinds that are missing get the default handlers, and no other kind is
    added. *)
Theorem default_handlers_never_override (h : ExceptionHandlers) (k : exc_key) :
  dict_get k (get_default_exception_handlers h) =
  match dict_get k h with
  | Some v => Some v
  | None => default_handler k
  end.
Proof. apply get_default_exception_handlers_get. Qed.

(** X11. [get_default_exception_handlers] keeps the entries it is given, in
    their order, in front of what it adds; it keeps the keys distinct; and
    running it twice is running it once. *)
Theorem default_handlers_idempotent (h : ExceptionHandlers) :
  (exists added : ExceptionHandlers,
     get_default_exception_handlers h = h ++ added)
  /\ (NoDup (dict_keys h) ->
      NoDup (dict_keys (get_default_exception_handlers h)))
  /\ get_default_exception_handlers (get_default_exception_handlers h) =
     get_default_exception_handlers h.
Proof.
  split; [|split].
  - unfold get_default_exception_handlers, dict_setdefault.
    destruct (dict_get (ExcClass CImproperlyConfigured) h) eqn:H1.
    + destruct (dict_get (ExcClass CValidationErrorException) h) eqn:H2.
      * exists []. now rewrite app_nil_r.
      * eexists. now rewrite (dict_set_absent _ _ _ H2).
    + rewrite (dict_set_absent _ _ _ H1).
      destruct (dict_get (ExcClass CValidationErrorException) (h ++ _)) eqn:H2.
      * eexists. reflexivity.
      * rewrite (dict_set_absent _ _ _ H2). rewrite <- app_assoc.
        eexists. reflexivity.
  - intros Hnd. unfold get_default_exception_handlers, dict_setdefault.
    destruct (dict_get (ExcClass CImproperlyConfigured) h);
      repeat match goal with
             | |- context [match ?x with Some _ => _ | None => _ end] =>
                 destruct x
             end;
      repeat apply NoDup_dict_set; exact Hnd.
  - set (g := get_default_exception_handlers h).
    assert (is_Some (dict_get (ExcClass CImproperlyConfigured) g)) as [x1 Hx1].
    { subst g. unfold get_default_exception_handlers.
      rewrite !dict_get_setdefault.
      destruct (dict_get (ExcClass CImproperlyConfigured) h);
        try (rewrite decide_True by reflexivity); eauto. }
    assert (is_Some (dict_get (ExcClass CValidationErrorException) g))
      as [x2 Hx2].
    { subst g. unfold get_default_exception_handlers.
      rewrite dict_get_setdefault.
      destruct (dict_get (ExcClass CValidationErrorException) _);
        try (rewrite decide_True by reflexivity); eauto. }
    unfold get_default_exception_handlers at 1.
    unfold dict_setdefault. now rewrite Hx1, Hx2.
Qed.

Lemma default_handlers_idempotent_witness :
  NoDup (dict_keys (get_default_exception_handlers
                      [(StatusCode 404, "not_found")])).
Proof.
  apply (proj1 (proj2 (default_handlers_idempotent
                         [(StatusCode 404, "not_found")]))).
  apply NoDup_singleton.
Defined.

(** ** The walk over the exception handlers *)

Lemma accumulator_default {A} (acc : option (list A)) :
  (if nonempty acc then default [] acc else []) = default [] acc.
Proof. now destruct acc as [[|x xs]|]. Qed.

Lemma build_routes_exception_handlers_nil (r : route) :
  build_routes_exception_handlers r (Some []) =
  build_routes_exception_handlers r None.
Proof. now destruct r. Qed.

Lemma walk_children_get (rs : list route) :
  Forall (fun r => forall acc k,
            dict_get k (build_routes_exception_handlers r acc) =
            match dict_get k (build_routes_exception_handlers r None) with
            | Some v => Some v
            | None => dict_get k (default [] acc)
            end) rs ->
  forall (d : ExceptionHandlers) (k : exc_key),
    dict_get k (walk_children rs d) =
    match dict_get k (walk_children rs []) with
    | Some v => Some v
    | None => dict_get k d
    end.
Proof.
  induction 1 as [|r rs Hr _ IH]; intros d k; [reflexivity|].
  change (walk_children (r :: rs) d)
    with (walk_children rs (build_routes_exception_handlers r (Some d))).
  change (walk_children (r :: rs) [])
    with (walk_children rs (build_routes_exception_handlers r (Some []))).
  rewrite IH, (IH (build_routes_exception_handlers r (Some []))).
  rewrite (Hr (Some d)), (Hr (Some [])). simpl.
  destruct (dict_get k (walk_children rs [])); [reflexivity|].
  now destruct (dict_get k (build_routes_exception_handlers r None)).
Qed.

(** The walk from an accumulator is the walk from nothing laid over the
    accumulator. *)
Lemma walk_get (r : route) (acc : option ExceptionHandlers) (k : exc_key) :
  dict_get k (build_routes_exception_handlers r acc) =
  match dict_get k (build_routes_exception_handlers r None) with
  | Some v => Some v
  | None => dict_get k (default [] acc)
  end.
Proof.
  revert acc k.
  induction r as [app rs mw eh IH | mw eh h | mw eh h | n]
    using route_tree_ind; intros acc k.
  - simpl. rewrite accumulator_default.
    destruct (is_nested_application app).
    + apply dict_get_update.
    + fold (walk_children rs (dict_update (default [] acc) eh)).
      fold (walk_children rs (dict_update [] eh)).
      rewrite (walk_children_get rs IH (dict_update (default [] acc) eh)).
      rewrite (walk_children_get rs IH (dict_update [] eh)).
      destruct (dict_get k (walk_children rs [])); [reflexivity|].
      apply dict_get_update.
  - simpl. rewrite accumulator_default.
    destruct (nonempty (handler_exception_handlers h)).
    + rewrite dict_get_update.
      rewrite (dict_get_update k (dict_update [] eh)).
      destruct (dict_get k (dict_update [] _)); [reflexivity|].
      apply dict_get_update.
    + apply dict_get_update.
  - simpl. rewrite accumulator_default.
    destruct (nonempty (handler_exception_handlers h)).
    + rewrite dict_get_update.
      rewrite (dict_get_update k (dict_update [] eh)).
      destruct (dict_get k (dict_update [] _)); [reflexivity|].
      apply dict_get_update.
    + apply dict_get_update.
  - simpl. now rewrite accumulator_default.
Qed.

Lemma walk_children_NoDup (rs : list route) :
  Forall (fun r => forall acc,
            NoDup (dict_keys (default [] acc)) ->
            NoDup (dict_keys (build_routes_exception_handlers r acc))) rs ->
  forall d : ExceptionHandlers,
    NoDup (dict_keys d) -> NoDup (dict_keys (walk_children rs d)).
Proof.
  induction 1 as [|r rs Hr _ IH]; intros d Hnd; [exact Hnd|].
  change (walk_children (r :: rs) d)
    with (walk_children rs (build_routes_exception_handlers r (Some d))).
  apply IH. now apply (Hr (Some d)).
Qed.

(** The walk keeps the keys of its dict distinct. *)
Lemma walk_NoDup (r : route) (acc : option ExceptionHandlers) :
  NoDup (dict_keys (default [] acc)) ->
  NoDup (dict_keys (build_routes_exception_handlers r acc)).
Proof.
  revert acc.
  induction r as [app rs mw eh IH | mw eh h | mw eh h | n]
    using route_tree_ind; intros acc Hnd; simpl;
    rewrite accumulator_default.
  - destruct (is_nested_application app).
    + now apply NoDup_dict_update.
    + apply (walk_children_NoDup rs IH). now apply NoDup_dict_update.
  - destruct (nonempty (handler_exception_handlers h));
      repeat apply NoDup_dict_update; exact Hnd.
  - destruct (nonempty (handler_exception_handlers h));
      repeat apply NoDup_dict_update; exact Hnd.
  - exact Hnd.
Qed.

Lemma walk_None_NoDup (r : route) :
  NoDup (dict_keys (build_routes_exception_handlers r None)).
Proof. apply walk_NoDup. apply NoDup_nil_2. Qed.

(** Walking the children of an Include and merging the walks of the routes
    one by one give the same lookups. *)
Lemma walk_children_route_handlers (rs : list route) (k : exc_key) :
  dict_get k (walk_children rs []) = dict_get k (route_handlers rs).
Proof.
  induction rs as [|r rs IH] using rev_ind; [reflexivity|].
  unfold walk_children, route_handlers, merge_route_handlers in *.
  rewrite !fold_left_app. simpl.
  rewrite walk_get, dict_get_update. simpl.
  rewrite (dict_get_update_nil k _ (walk_None_NoDup r)).
  now rewrite IH.
Qed.

(** X12. The handler walk only adds to and overrides the dict it is given:
    a kind the route (or anything below it) registers gets the route's
    handler, and every other kind keeps the handler the accumulator had.  No
    registration is ever dropped. *)
Theorem handler_walk_overrides_accumulator
    (r : route) (acc : option ExceptionHandlers) (k : exc_key) :
  dict_get k (build_routes_exception_handlers r acc) =
  match dict_get k (build_routes_exception_handlers r None) with
  | Some v => Some v
  | None => dict_get k (default [] acc)
  end.
Proof. apply walk_get. Qed.

(** X13. At a Gateway (or WebSocketGateway) the bound handler's exception
    handlers take precedence over the Gateway's own, and those over what was
    accumulated above. *)
Theorem gateway_handler_precedence
    (mw : list Middleware) (eh : ExceptionHandlers) (h : Handler)
    (acc : option ExceptionHandlers) (k : exc_key) :
  NoDup (dict_keys eh) ->
  NoDup (dict_keys (default [] (handler_exception_handlers h))) ->
  let resolved :=
    match dict_get k (default [] (handler_exception_handlers h)) with
    | Some v => Some v
    | None =>
        match dict_get k eh with
        | Some v => Some v
        | None => dict_get k (default [] acc)
        end
    end in
  dict_get k (build_routes_exception_handlers (Gateway mw eh h) acc) = resolved
  /\ dict_get k (build_routes_exception_handlers (WebSocketGateway mw eh h) acc)
     = resolved.
Proof.
  intros Heh Hh. simpl. rewrite accumulator_default.
  assert (dict_get k
            (if nonempty (handler_exception_handlers h)
             then dict_update (dict_update (default [] acc) eh)
                    (default [] (handler_exception_handlers h))
             else dict_update (default [] acc) eh) =
          match dict_get k (default [] (handler_exception_handlers h)) with
          | Some v => Some v
          | None =>
              match dict_get k eh with
              | Some v => Some v
              | None => dict_get k (default [] acc)
              end
          end) as Hgoal.
  { destruct (nonempty (handler_exception_handlers h)) eqn:Hn.
    - rewrite dict_get_update, (dict_get_update_nil k _ Hh).
      destruct (dict_get k (default [] (handler_exception_handlers h)));
        [reflexivity|].
      now rewrite dict_get_update, (dict_get_update_nil k eh Heh).
    - assert (default [] (handler_exception_handlers h) = []) as ->.
      { now destruct (handler_exception_handlers h) as [[|kv hh]|]. }
      cbn [dict_get].
      now rewrite dict_get_update, (dict_get_update_nil k eh Heh). }
  split; exact Hgoal.
Qed.

Lemma gateway_handler_precedence_witness :
  dict_get forbidden (build_routes_exception_handlers overriding_gateway None)
  = Some "handler_forbidden".
Proof.
  apply (gateway_handler_precedence [] [(forbidden, "gateway_forbidden")]
           overriding_handler None forbidden).
  - apply NoDup_singleton.
  - apply NoDup_singleton.
Defined.

(** X14. At an Include that is not a nested application, what is registered
    below it takes precedence over the Include's own exception handlers, and
    those over what was accumulated above: the most specific registration
    wins. *)
Theorem include_descendants_precedence
    (app : app_ref route) (rs : list route) (mw : list Middleware)
    (eh : ExceptionHandlers) (acc : option ExceptionHandlers) (k : exc_key) :
  is_nested_application app = false ->
  NoDup (dict_keys eh) ->
  dict_get k (build_routes_exception_handlers (Include app rs mw eh) acc) =
  match dict_get k (route_handlers rs) with
  | Some v => Some v
  | None =>
      match dict_get k eh with
      | Some v => Some v
      | None => dict_get k (default [] acc)
      end
  end.
Proof.
  intros Happ Heh. simpl. rewrite accumulator_default, Happ.
  fold (walk_children rs (dict_update (default [] acc) eh)).
  rewrite walk_children_get.
  - rewrite walk_children_route_handlers.
    destruct (dict_get k (route_handlers rs)); [reflexivity|].
    now rewrite dict_get_update, (dict_get_update_nil k eh Heh).
  - apply Forall_forall. intros r _ acc' k'. apply walk_get.
Qed.

Lemma include_descendants_precedence_witness :
  dict_get forbidden (build_routes_exception_handlers overriding_include None)
  = Some "gateway_forbidden".
Proof.
  refine (eq_trans
            (include_descendants_precedence NoApp
               [Gateway [] [(forbidden, "gateway_forbidden")] plain_handler]
               [] [(forbidden, "include_forbidden")] None forbidden _ _) _).
  - reflexivity.
  - apply NoDup_singleton.
  - reflexivity.
Defined.

(** X15. The handlers of the routes are merged into one flat map, the routes
    taken in order: for a kind registered under several routes, the
    registration of the last of them is the one kept. *)
Theorem later_routes_override (rs1 rs2 : list route) (k : exc_key) :
  dict_get k (route_handlers (rs1 ++ rs2)) =
  match dict_get k (route_handlers rs2) with
  | Some v => Some v
  | None => dict_get k (route_handlers rs1)
  end.
Proof.
  unfold route_handlers at 1. unfold merge_route_handlers.
  rewrite fold_left_app.
  fold (merge_route_handlers rs1 []).
  fold (merge_route_handlers rs2 (merge_route_handlers rs1 [])).
  apply merge_route_handlers_get.
Qed.

(** ** Handlers of a constructed application *)






(** X17. Putting routes below an Include that has no app and no handlers of
    its own leaves every handler lookup as it was, but removes all their
    middleware from what the routes contribute. *)
Theorem grouping_keeps_handlers_drops_middleware
    (rs : list route) (mw : list Middleware) :
  (forall k : exc_key,
     dict_get k (route_handlers [Include NoApp rs mw []]) =
     dict_get k (route_handlers rs))
  /\ flat_map gateway_middleware [Include NoApp rs mw []] = []
  /\ build_routes_middleware (Include NoApp rs mw []) None = [].
Proof.
  split; [|split; reflexivity].
  intros k. unfold route_handlers at 1. unfold merge_route_handlers.
  cbn [fold_left].
  rewrite (dict_get_update_nil k _ (walk_None_NoDup _)).
  cbn [build_routes_exception_handlers nonempty is_nested_application].
  fold (walk_children rs (dict_update [] [])).
  apply walk_children_route_handlers.
Qed.

(** ** [add_router] *)











(** ** [__call__] *)

Lemma scope_type_after_app (scope : list (string * scope_value)) :
  dict_get "type" (dict_set "app" SApp scope) = dict_get "type" scope.
Proof. apply dict_get_set_ne. discriminate. Qed.

(** X21. A lifespan scope is handed to the router's lifespan handler with
    only ["app"] set: neither the state nor the root path is touched.  A
    scope without ["type"] raises [KeyError], after ["app"] has been set. *)
Theorem call_lifespan_scope (self : Esmerald)
    (scope : list (string * scope_value)) :
  (forall t : scope_value,
     dict_get "type" scope = Some t -> is_lifespan t = true ->
     call_ self scope = RouterLifespan (dict_set "app" SApp scope))
  /\ (dict_get "type" scope = None ->
      call_ self scope = KeyError (dict_set "app" SApp scope)).
Proof.
  unfold call_. rewrite scope_type_after_app.
  split.
  - intros t Ht Hl. now rewrite Ht, Hl.
  - intros Ht. now rewrite Ht.
Qed.

Lemma call_lifespan_scope_witness :
  call_ configured_app lifespan_scope =
  RouterLifespan (dict_set "app" SApp lifespan_scope).
Proof.
  apply (proj1 (call_lifespan_scope configured_app lifespan_scope)
           (SVal (PStr "lifespan"))); reflexivity.
Defined.

(** X22. Any other scope that has a ["type"] goes on to the request path
    with ["app"] set to the application and ["state"] reset to an empty
    dict, whatever state it arrived with; ["root_path"] is overwritten with
    the application's when that is truthy and kept otherwise; every other
    key is left as it was. *)
Theorem call_request_scope (self : Esmerald)
    (scope : list (string * scope_value)) (t : scope_value) :
  dict_get "type" scope = Some t ->
  is_lifespan t = false ->
  exists scope' : list (string * scope_value),
    call_ self scope = StarletteCall scope'
    /\ dict_get "app" scope' = Some SApp
    /\ dict_get "state" scope' = Some (SVal (PDict []))
    /\ dict_get "root_path" scope' =
       (if truthy (AppConfig.root_path (config self))
        then Some (SVal (AppConfig.root_path (config self)))
        else dict_get "root_path" scope)
    /\ forall k : string,
         k <> "app" -> k <> "state" -> k <> "root_path" ->
         dict_get k scope' = dict_get k scope.
Proof.
  intros Ht Hl. unfold call_. rewrite scope_type_after_app, Ht, Hl.
  eexists. split; [reflexivity|].
  destruct (truthy (AppConfig.root_path (config self))).
  - split; [|split; [|split]].
    + rewrite !dict_get_set_ne by discriminate. apply dict_get_set_eq.
    + apply dict_get_set_eq.
    + rewrite dict_get_set_ne by discriminate. apply dict_get_set_eq.
    + intros k H1 H2 H3. now rewrite !dict_get_set_ne by congruence.
  - split; [|split; [|split]].
    + rewrite dict_get_set_ne by discriminate. apply dict_get_set_eq.
    + apply dict_get_set_eq.
    + now rewrite !dict_get_set_ne by discriminate.
    + intros k H1 H2 H3. now rewrite !dict_get_set_ne by congruence.
Qed.

Lemma call_request_scope_witness :
  exists scope',
    call_ configured_app http_scope = StarletteCall scope'
    /\ dict_get "state" scope' = Some (SVal (PDict []))
    /\ dict_get "root_path" scope' = Some (SVal (PStr "/proxy")).
Proof.
  destruct (call_request_scope configured_app http_scope
              (SVal (PStr "http")) eq_refl eq_refl)
    as (scope' & Hc & _ & Hs & Hr & _).
  exists scope'. split; [exact Hc|]. split; [exact Hs | exact Hr].
Defined.
